(** * Dev-server lifecycle and layered configuration of rsbuild

    A shallow embedding of [packages/shared/src/devServer.ts] and of the
    [init] entry point of [packages/core/src/cli/commands.ts], with the
    properties of the dev-server start sequence, of the layered dev-server
    options and of the restart entry point stated over it. *)

From stdpp Require Import base strings list gmap pretty.
From Stdlib Require Import Ascii ZArith Lia.

Set Warnings "-register-all".

Open Scope Z_scope.
Open Scope string_scope.
Open Scope list_scope.

(** ** JavaScript values

    Configuration fragments are plain JavaScript data.  Objects keep their
    keys in insertion order, so they are association lists read by first
    match; a function value is opaque and carried by a label. *)

Inductive JsVal : Type :=
  | JUndef
  | JBool (b : bool)
  | JNum (n : Z)
  | JStr (s : string)
  | JFun (label : string)
  | JArr (items : list JsVal)
  | JObj (fields : list (string * JsVal)).

Definition Fields : Type := list (string * JsVal).

(** [obj.k] on the own properties of an object. *)
Fixpoint getProp (k : string) (fs : Fields) : option JsVal :=
  match fs with
  | [] => None
  | (k', v) :: rest => if String.eqb k k' then Some v else getProp k rest
  end.

Definition hasProp (k : string) (fs : Fields) : bool :=
  match getProp k fs with Some _ => true | None => false end.

(** JavaScript truthiness, as used by [||], [!] and [if]. *)
Definition truthy (v : JsVal) : bool :=
  match v with
  | JUndef => false
  | JBool b => b
  | JNum n => negb (Z.eqb n 0)
  | JStr s => negb (String.eqb s "")
  | JFun _ | JArr _ | JObj _ => true
  end.

(** [typeof v === 'object'] *)
Definition typeofObject (v : JsVal) : bool :=
  match v with
  | JArr _ | JObj _ => true
  | _ => false
  end.

(** [v?.k1?.k2 ...]: chained optional property reads along a key path. *)
Fixpoint getPath (p : list string) (v : JsVal) : JsVal :=
  match p with
  | [] => v
  | k :: p' =>
      match v with
      | JObj fs =>
          match getProp k fs with
          | Some x => getPath p' x
          | None => JUndef
          end
      | _ => JUndef
      end
  end.

(** A leaf is a defined value that is not a plain object. *)
Definition isLeaf (v : JsVal) : bool :=
  match v with
  | JUndef | JObj _ => false
  | _ => true
  end.

(** The fragment [v] says nothing at path [p]: walking [p] meets plain
    objects only and ends on a missing or undefined property. *)
Fixpoint absentAt (p : list string) (v : JsVal) : bool :=
  match p with
  | [] => match v with JUndef => true | _ => false end
  | k :: p' =>
      match v with
      | JUndef => true
      | JObj fs =>
          match getProp k fs with
          | Some x => absentAt p' x
          | None => true
          end
      | _ => false
      end
  end.

(** A whole tier of options says nothing at a key path: it is not a plain
    object and so has no fields, or it is one and [absentAt] holds. *)
Definition absentIn (p : list string) (tier : JsVal) : bool :=
  match tier with
  | JObj _ => absentAt p tier
  | _ => true
  end.

(** ** The layered option merger *)

(** Modelled from the spec: the merge of the values two objects have under
    one key, the recursive part of the npm package [deepmerge], which
    devServer.ts imports and which is not part of the sources.  Section 4.1:
    plain-object fields combine key-wise recursively; an array is replaced
    wholesale by the override's array; for the other leaves the override
    wins when it is defined, and [undefined] in the override never
    overwrites a default. *)
Fixpoint mergeValue (target source : JsVal) {struct target} : JsVal :=
  match source with
  | JUndef => target
  | JObj fo =>
      match target with
      | JObj fd =>
          JObj
            ((fix mergeOwn (own : Fields) : Fields :=
                match own with
                | [] => []
                | (k, dv) :: rest =>
                    (k, match getProp k fo with
                        | Some ov => mergeValue dv ov
                        | None => dv
                        end) :: mergeOwn rest
                end) fd
             ++ List.filter (fun kv => negb (hasProp (fst kv) fd)) fo)
      | _ => source
      end
  | _ => source
  end.

(** The key-wise part of [mergeValue], named for the lemmas. *)
Fixpoint mergeOwn (fo own : Fields) : Fields :=
  match own with
  | [] => []
  | (k, dv) :: rest =>
      (k, match getProp k fo with
          | Some ov => mergeValue dv ov
          | None => dv
          end) :: mergeOwn fo rest
  end.

(** Modelled from the spec: [deepmerge(defaults, overrides)] of the npm
    package, which is not part of the sources.  Section 4.1: the overrides
    may omit any subset of fields, and the fields they have are laid over
    the defaults; overrides that are not a plain object (a boolean, a
    function, nothing at all) have no fields and leave the defaults as
    they are. *)
Definition deepmerge (target source : JsVal) : JsVal :=
  match source with
  | JObj _ => mergeValue target source
  | _ => target
  end.

Definition Error : Type := string.

Inductive Result (A : Type) : Type :=
  | Ok (a : A)
  | Err (e : Error).
Arguments Ok {A} a.
Arguments Err {A} e.

(** Modelled from the spec: [mergeChainedOptions] lives in
    ./mergeChainedOptions, which is not part of the sources.  Section 4.1:
    [merge(defaults, overrides, mergeFn)] combines the two with the merge
    function, and a missing merge function fails fast with a [ConfigError]. *)
Definition mergeChainedOptions (defaults options : JsVal)
    (mergeFn : option (JsVal -> JsVal -> JsVal)) : Result JsVal :=
  match mergeFn with
  | None => Err "ConfigError: missing merge strategy"
  | Some f => Ok (f defaults options)
  end.

(** ** Configuration records *)

(** [rsbuildConfig.dev], the fields read by the dev server. *)
Record DevConfig : Type := {
  dev_hmr : option bool;
  dev_https : JsVal;
  dev_port : option Z;
  dev_host : option string;
}.

Record RsbuildConfig : Type := {
  cfg_dev : option DevConfig;
  cfg_tools_devServer : JsVal;
}.

(** [StartDevServerOptions['serverOptions']] with its [dev] entry, which is
    a boolean, an options object or missing. *)
Record ServerOptions : Type := {
  so_dev : JsVal;
}.

(** [a ?? b] on an optional boolean. *)
Definition nullish (a : option bool) (b : bool) : bool :=
  match a with Some x => x | None => b end.

(** [a || b] on values. *)
Definition orElse (a b : JsVal) : JsVal := if truthy a then a else b.

(** [rsbuildConfig.dev?.hmr] *)
Definition cfgHmr (c : RsbuildConfig) : option bool :=
  match cfg_dev c with Some d => dev_hmr d | None => None end.

(** [rsbuildConfig.dev?.https] *)
Definition cfgHttps (c : RsbuildConfig) : JsVal :=
  match cfg_dev c with Some d => dev_https d | None => JUndef end.

(** The object literal that opens [getDevServerOptions]. *)
Definition builtinDevConfig (rsbuildConfig : RsbuildConfig) (port : Z) : JsVal :=
  JObj
    [ ("hot", JBool (nullish (cfgHmr rsbuildConfig) true));
      ("watch", JBool true);
      ("client", JObj [ ("port", JStr (pretty port)) ]);
      ("port", JNum port);
      ("liveReload", JBool (nullish (cfgHmr rsbuildConfig) true));
      ("devMiddleware",
        JObj [ ("writeToDisk", JFun "(file) => !file.includes('.hot-update.')") ]);
      ("https", cfgHttps rsbuildConfig) ].

(** devServer.ts, [getDevServerOptions]: the [devConfig] of its result. *)
Definition getDevServerOptions (rsbuildConfig : RsbuildConfig)
    (serverOptions : ServerOptions) (port : Z) : Result JsVal :=
  let defaultDevConfig :=
    deepmerge (builtinDevConfig rsbuildConfig port)
              (orElse (so_dev serverOptions) (JObj [])) in
  mergeChainedOptions defaultDevConfig (cfg_tools_devServer rsbuildConfig)
                      (Some deepmerge).

(** ** Promises, events and the state of one run *)

(** How a promise ends: fulfilled, rejected, or never settled. *)
Inductive Completion (A : Type) : Type :=
  | Fulfilled (a : A)
  | Rejected (e : Error)
  | Pending.
Arguments Fulfilled {A} a.
Arguments Rejected {A} e.
Arguments Pending {A}.

(** One entry of the address list, [{ url, label }]. *)
Record UrlEntry : Type := {
  url : string;
  label : string;
}.

Inductive Logger : Type :=
  | DefaultLogger
  | CustomLogger (name : string).

(** What a [printURLs] function hands back. *)
Inductive PrintResult : Type :=
  | NotAnArray
  | UrlArray (urls : list UrlEntry).

(** The [printURLs] option: a boolean or a function over the address list. *)
Inductive PrintURLs : Type :=
  | PrintBool (b : bool)
  | PrintFn (f : list UrlEntry -> PrintResult).

(** What [server.listen(options, callback)] does with its callback: it
    throws before calling it, calls it with an error or with none, or never
    calls it. *)
Inductive ListenBehaviour : Type :=
  | ListenThrows (e : Error)
  | ListenCallback (err : option Error)
  | ListenNoCallback.

(** [ServerApi]: the object returned by the server factory. *)
Record ServerApi : Type := {
  srv_name : string;
  srv_init : Completion unit;
  srv_listen : JsVal -> Z -> ListenBehaviour;
}.

Record StartServerResult : Type := {
  res_port : Z;
  res_urls : list string;
  res_server : ServerApi;
}.

(** [StartDevServerOptions]; every entry is optional. *)
Record StartDevServerOptions : Type := {
  o_open : JsVal;
  o_compiler : JsVal;
  o_printURLs : option PrintURLs;
  o_strictPort : option bool;
  o_serverOptions : option ServerOptions;
  o_logger : option Logger;
  o_getPortSilently : option bool;
}.

(** The third argument left out: [= {}]. *)
Definition noOptions : StartDevServerOptions :=
  {| o_open := JUndef; o_compiler := JUndef; o_printURLs := None;
     o_strictPort := None; o_serverOptions := None; o_logger := None;
     o_getPortSilently := None |}.

Inductive HookName : Type :=
  | OnBeforeStartDevServer
  | OnAfterStartDevServer.

(** A registered hook callback: the promise it returns for a payload. *)
Definition HookCallback : Type := JsVal -> Completion unit.

(** [options.context]: the configuration and the two hooks. *)
Record DevServerContext : Type := {
  ctx_config : RsbuildConfig;
  ctx_onBeforeStartDevServerHook : list HookCallback;
  ctx_onAfterStartDevServerHook : list HookCallback;
}.

(** [options.context.devServer], written by [startDevServer]. *)
Record DevServerInfo : Type := {
  ds_hostname : JsVal;
  ds_port : Z;
  ds_https : bool;
  ds_open : JsVal;
}.

(** The calls a run makes on its collaborators, in order. *)
Inductive Event : Type :=
  | EvGetPort (requested : Z) (strictPort : bool) (silent : option bool)
  | EvLog (logger : Logger) (message : string)
  | EvCreateDevServer (port : Z)
  | EvHookCall (h : HookName) (payload : JsVal)
  | EvHookCallback (h : HookName) (index : nat) (payload : JsVal)
  | EvHookReturn (h : HookName)
  | EvDebug (message : string)
  | EvInit
  | EvListen (host : JsVal) (port : Z)
  | EvListenCallback (err : option Error)
  | EvResolve (port : Z) (urls : list string) (server : string).

(** The mutable world of a run: [process.env], the context entry
    [devServer], the state of the promise built by [new Promise], and the
    calls made so far. *)
Record RunState : Type := {
  st_env : gmap string string;
  st_devServer : option DevServerInfo;
  st_settled : option StartServerResult;
  st_trace : list Event;
}.

Definition initialState (env : gmap string string) : RunState :=
  {| st_env := env; st_devServer := None; st_settled := None; st_trace := [] |}.

(** An asynchronous computation over a mutable state [S]: where the state
    ends up, and how the promise of the computation ends. *)
Definition Async (S A : Type) : Type := S -> Completion A * S.

#[global] Instance Async_ret {S : Type} : MRet (Async S) :=
  fun A a s => (Fulfilled a, s).

#[global] Instance Async_bind {S : Type} : MBind (Async S) :=
  fun A B f m s =>
    match m s with
    | (Fulfilled a, s') => f a s'
    | (Rejected e, s') => (Rejected e, s')
    | (Pending, s') => (Pending, s')
    end.

(** [throw e] *)
Definition throw {S A : Type} (e : Error) : Async S A :=
  fun s => (Rejected e, s).

(** [await p] on a promise that ends as [c]. *)
Definition await {S A : Type} (c : Completion A) : Async S A :=
  fun s => (c, s).

(** [try { body } catch (err) { handler(err) }] *)
Definition tryCatch {S A : Type} (body : Async S A)
    (handler : Error -> Async S A) : Async S A :=
  fun s =>
    match body s with
    | (Rejected e, s') => handler e s'
    | other => other
    end.

Definition skip {S : Type} : Async S unit := mret tt.

(** Computations of one run of [startDevServer]. *)
Abbreviation Run := (Async RunState).

Definition emit (e : Event) : Run unit :=
  fun s =>
    (Fulfilled tt,
     {| st_env := st_env s; st_devServer := st_devServer s;
        st_settled := st_settled s; st_trace := st_trace s ++ [e] |}).

(** [process.env[k]] *)
Definition getEnv (k : string) : Run (option string) :=
  fun s => (Fulfilled (st_env s !! k), s).

(** [process.env[k] = v] *)
Definition setEnv (k v : string) : Run unit :=
  fun s =>
    (Fulfilled tt,
     {| st_env := <[k := v]> (st_env s); st_devServer := st_devServer s;
        st_settled := st_settled s; st_trace := st_trace s |}).

(** [options.context.devServer = info] *)
Definition setDevServer (info : DevServerInfo) : Run unit :=
  fun s =>
    (Fulfilled tt,
     {| st_env := st_env s; st_devServer := Some info;
        st_settled := st_settled s; st_trace := st_trace s |}).

(** [resolve(r)] of the promise under construction; only the first call
    settles it. *)
Definition resolve (r : StartServerResult) : Run unit :=
  fun s =>
    (Fulfilled tt,
     {| st_env := st_env s; st_devServer := st_devServer s;
        st_settled := match st_settled s with Some r0 => Some r0 | None => Some r end;
        st_trace := st_trace s
          ++ [EvResolve (res_port r) (res_urls r) (srv_name (res_server r))] |}).

(** A fresh, unsettled promise. *)
Definition freshPromise : Run unit :=
  fun s =>
    (Fulfilled tt,
     {| st_env := st_env s; st_devServer := st_devServer s;
        st_settled := None; st_trace := st_trace s |}).

(** [!v] for an entry of [process.env]. *)
Definition envFalsy (v : option string) : bool :=
  match v with
  | None => true
  | Some s => String.eqb s ""
  end.

(** ** The dev-server start sequence *)

(** The modules imported by devServer.ts whose code is not part of the
    sources: the constants of ./constants, the address resolver of ./url,
    the port resolver of ./port (the promise it returns for a requested
    port and its [strictPort] and [silent] options) and [color.cyan]. *)
Class Imports : Type := {
  DEFAULT_PORT : Z;
  DEFAULT_DEV_HOST : string;
  getAddressUrls : string -> Z -> option string -> list UrlEntry;
  getPort : Z -> bool -> option bool -> Completion Z;
  cyan : string -> string;
}.

Definition newline : string := String "010"%char EmptyString.

(** The strings of the model are UTF-8 byte sequences, while JavaScript
    counts the length of a string in UTF-16 code units: none for a
    continuation byte, two for the first byte of a four-byte character, one
    for every other byte. *)
Definition utf16Units (c : ascii) : nat :=
  match c with
  | Ascii _ _ _ _ _ _ false true => 0
  | Ascii _ _ _ _ true true true true => 2
  | _ => 1
  end.

(** [s.length] *)
Fixpoint utf16Length (s : string) : nat :=
  match s with
  | EmptyString => 0
  | String c rest => utf16Units c + utf16Length rest
  end.

(** [s.padEnd(n)] *)
Definition padEnd (n : nat) (s : string) : string :=
  String.append s (String.concat "" (replicate (n - utf16Length s)%nat " ")).

(** Modelled from the spec: [createAsyncHook] lives in ./createHook, which
    is not part of the sources.  Section 4.4: [call(payload)] awaits each
    registered callback strictly in registration order; a callback that
    fails aborts the remaining sequence and the failure reaches the caller
    of [call]. *)
Fixpoint runCallbacks (h : HookName) (payload : JsVal) (index : nat)
    (callbacks : list HookCallback) : Run unit :=
  match callbacks with
  | [] => skip
  | cb :: rest =>
      emit (EvHookCallback h index payload);;
      await (cb payload);;
      runCallbacks h payload (S index) rest
  end.

(** Modelled from the spec: [hook.call(payload)] of ./createHook, section
    4.4, with its start and its completion recorded. *)
Definition hookCall (h : HookName) (callbacks : list HookCallback)
    (payload : JsVal) : Run unit :=
  emit (EvHookCall h payload);;
  runCallbacks h payload 0%nat callbacks;;
  emit (EvHookReturn h).

Section StartDevServer.
Context `{Imports}.

(** devServer.ts, [printServerURLs]: the [message] it builds. *)
Definition serverURLsMessage (urls : list UrlEntry) : string :=
  String.concat ""
    (map (fun u =>
            String.append "  "
              (String.append (String.append "> " (padEnd 10 (label u)))
                 (String.append (cyan (url u)) newline)))
         urls).

(** devServer.ts, [printServerURLs] *)
Definition printServerURLs (urls : list UrlEntry) (logger : Logger) : Run unit :=
  emit (EvLog logger (serverURLsMessage urls)).

(** [rsbuildConfig.dev?.port || DEFAULT_PORT] *)
Definition requestedPort (rsbuildConfig : RsbuildConfig) : Z :=
  match cfg_dev rsbuildConfig with
  | Some d =>
      match dev_port d with
      | Some p => if Z.eqb p 0 then DEFAULT_PORT else p
      | None => DEFAULT_PORT
      end
  | None => DEFAULT_PORT
  end.

(** [rsbuildConfig.dev?.host] *)
Definition cfgHost (rsbuildConfig : RsbuildConfig) : option string :=
  match cfg_dev rsbuildConfig with
  | Some d => dev_host d
  | None => None
  end.

(** startDevServer, the [host] constant. *)
Definition serverHost (serverOptions : ServerOptions) : JsVal :=
  if typeofObject (so_dev serverOptions)
     && truthy (getPath ["host"] (so_dev serverOptions))
  then getPath ["host"] (so_dev serverOptions)
  else JStr DEFAULT_DEV_HOST.

(** startDevServer, the [https] constant. *)
Definition serverHttps (serverOptions : ServerOptions) : bool :=
  if typeofObject (so_dev serverOptions)
     && truthy (getPath ["https"] (so_dev serverOptions))
  then truthy (getPath ["https"] (so_dev serverOptions))
  else false.

(** startDevServer, the block [if (printURLs) { ... }]: the list bound to
    [urls] afterwards. *)
Definition printAndTransform (printURLs : PrintURLs) (logger : Logger)
    (urls : list UrlEntry) : Run (list UrlEntry) :=
  match printURLs with
  | PrintBool false => mret urls
  | PrintBool true => printServerURLs urls logger;; mret urls
  | PrintFn f =>
      match f urls with
      | NotAnArray =>
          throw "Please return an array in the `printURLs` function."
      | UrlArray urls' => printServerURLs urls' logger;; mret urls'
      end
  end.

(** startDevServer, the callback handed to [server.listen]; it is an
    [async] function, so its outcome is the promise it returns. *)
Definition listenCallback (options : DevServerContext) (port : Z)
    (urls : list UrlEntry) (server : ServerApi) (err : option Error)
    : Run unit :=
  match err with
  | Some e => throw e
  | None =>
      emit (EvDebug "listen dev server done");;
      hookCall OnAfterStartDevServer
        (ctx_onAfterStartDevServerHook options)
        (JObj [("port", JNum port)]);;
      resolve {| res_port := port; res_urls := map url urls;
                 res_server := server |}
  end.

(** startDevServer, [new Promise((resolve) => { server.listen(...) })].
    The executor receives [resolve] only: the promise rejects when the
    executor itself throws, is fulfilled once [resolve] has been called,
    and stays pending otherwise.  The promise returned by the callback is
    dropped by [listen]. *)
Definition listenPromise (options : DevServerContext) (host : JsVal)
    (port : Z) (urls : list UrlEntry) (server : ServerApi)
    : Run StartServerResult :=
  fun s =>
    let s1 := snd ((freshPromise;; emit (EvListen host port)) s) in
    match srv_listen server host port with
    | ListenThrows e => (Rejected e, s1)
    | ListenNoCallback => (Pending, s1)
    | ListenCallback err =>
        let s2 :=
          snd ((emit (EvListenCallback err);;
                listenCallback options port urls server err) s1) in
        (match st_settled s2 with
         | Some r => Fulfilled r
         | None => Pending
         end, s2)
    end.

(** devServer.ts, [startDevServer] *)
Definition startDevServer (options : DevServerContext)
    (createDevServer : Z -> ServerOptions -> JsVal -> Completion ServerApi)
    (opts : StartDevServerOptions) : Run StartServerResult :=
  let printURLs := default (PrintBool true) (o_printURLs opts) in
  let strictPort := default false (o_strictPort opts) in
  let serverOptions := default {| so_dev := JUndef |} (o_serverOptions opts) in
  let logger := default DefaultLogger (o_logger opts) in
  nodeEnv ← getEnv "NODE_ENV";
  (if envFalsy nodeEnv then setEnv "NODE_ENV" "development" else skip);;
  let rsbuildConfig := ctx_config options in
  emit (EvGetPort (requestedPort rsbuildConfig) strictPort
          (o_getPortSilently opts));;
  port ← await (getPort (requestedPort rsbuildConfig) strictPort
                  (o_getPortSilently opts));
  let host := serverHost serverOptions in
  let https := serverHttps serverOptions in
  setDevServer {| ds_hostname := host; ds_port := port; ds_https := https;
                  ds_open := o_open opts |};;
  let protocol := if https then "https" else "http" in
  urls ← printAndTransform printURLs logger
           (getAddressUrls protocol port (cfgHost rsbuildConfig));
  emit (EvCreateDevServer port);;
  server ← await (createDevServer port serverOptions (o_compiler opts));
  hookCall OnBeforeStartDevServer
    (ctx_onBeforeStartDevServerHook options) JUndef;;
  emit (EvDebug "listen dev server");;
  emit EvInit;;
  await (srv_init server);;
  listenPromise options host port urls server.

End StartDevServer.

(** ** The compiler-event bridge *)

(** The three registration points of a compiler. *)
Inductive HookPoint : Type :=
  | HookCompile
  | HookInvalid
  | HookDone.

(** One call [compiler.hooks.<point>.tap(name, fn)]. *)
Record TapCall (F : Type) : Type := {
  tap_point : HookPoint;
  tap_name : string;
  tap_fn : F;
}.
Arguments tap_point {F} _.
Arguments tap_name {F} _.
Arguments tap_fn {F} _.

(** [ServerCallbacks], over the type [F] of function values. *)
Record ServerCallbacks (F : Type) : Type := {
  onInvalid : F;
  onDone : F;
}.
Arguments onInvalid {F} _.
Arguments onDone {F} _.

(** The compiler-like argument of [setupServerHooks]; its registration
    points are observed through the calls made on them. *)
Record CompilerLike : Type := {
  compiler_name : option string;
}.

(** [compiler.name === 'server'] *)
Definition isServerCompiler (compiler : CompilerLike) : bool :=
  match compiler_name compiler with
  | Some n => String.eqb n "server"
  | None => false
  end.

(** devServer.ts, [setupServerHooks]: the [tap] calls it makes, in order. *)
Definition setupServerHooks {F : Type} (compiler : CompilerLike)
    (hookCallbacks : ServerCallbacks F) : list (TapCall F) :=
  if isServerCompiler compiler then []
  else
    [ {| tap_point := HookCompile; tap_name := "modern-dev-server";
         tap_fn := onInvalid hookCallbacks |};
      {| tap_point := HookInvalid; tap_name := "modern-dev-server";
         tap_fn := onInvalid hookCallbacks |};
      {| tap_point := HookDone; tap_name := "modern-dev-server";
         tap_fn := onDone hookCallbacks |} ].

(** The calls made on one registration point. *)
Definition tapsOn {F : Type} (point : HookPoint) (calls : list (TapCall F))
    : list (TapCall F) :=
  List.filter
    (fun c =>
       match tap_point c, point with
       | HookCompile, HookCompile | HookInvalid, HookInvalid
       | HookDone, HookDone => true
       | _, _ => false
       end)
    calls.

(** ** The command-line entry point [init] *)

(** [CommonOptions] of commands.ts.  [port] is declared a number, but
    [--port <port>] has no argument parser, so the command line hands it
    over as the string that was typed; the entry is therefore a value, and
    so is the [server.port] it is copied to. *)
Record CommonOptions : Type := {
  opt_config : option string;
  opt_envMode : option string;
  opt_open : JsVal;
  opt_host : option string;
  opt_port : JsVal;
}.

(** The loaded configuration, with the entries [init] reads and writes. *)
Record SourceConfig : Type := {
  source_define : option Fields;
}.

Record CliDevConfig : Type := {
  cli_startUrl : JsVal;
}.

Record CliServerConfig : Type := {
  server_host : option string;
  server_port : JsVal;
}.

Record CliConfig : Type := {
  config_source : option SourceConfig;
  config_dev : option CliDevConfig;
  config_server : option CliServerConfig;
}.

(** The result of [loadEnv]. *)
Record LoadedEnv : Type := {
  env_cleanup : string;
  env_filePaths : list string;
  env_publicVars : Fields;
}.

(** The result of [loadConfig]. *)
Record LoadedConfig : Type := {
  lc_content : CliConfig;
  lc_filePath : option string;
}.

Inductive CliEvent : Type :=
  | CliOnBeforeRestartServer (cleanup : string)
  | CliWatchFiles (files : list string)
  | CliCreateRsbuild (cwd : string) (rsbuildConfig : CliConfig)
  | CliLoggerError (err : Error).

(** The module-level [commonOpts] and the calls made so far. *)
Record CliState : Type := {
  commonOpts : CommonOptions;
  cli_trace : list CliEvent;
}.

Abbreviation Cli := (Async CliState).

Definition cliEmit (e : CliEvent) : Cli unit :=
  fun s =>
    (Fulfilled tt,
     {| commonOpts := commonOpts s; cli_trace := cli_trace s ++ [e] |}).

(** [commonOpts = cliOptions] *)
Definition setCommonOpts (o : CommonOptions) : Cli unit :=
  fun s => (Fulfilled tt, {| commonOpts := o; cli_trace := cli_trace s |}).

Definition getCommonOpts : Cli CommonOptions :=
  fun s => (Fulfilled (commonOpts s), s).

(** A synchronous call that returns or throws. *)
Definition call {S A : Type} (r : Result A) : Async S A :=
  fun s => match r with Ok a => (Fulfilled a, s) | Err e => (Rejected e, s) end.

(** What commands.ts reaches outside the sources: [process.cwd()],
    [process.argv[2]], [loadEnv], [isDev], [loadConfig], the dynamic import
    of ../createRsbuild and [createRsbuild] itself; [R] is the type of the
    instance [createRsbuild] returns. *)
Class CliImports (R : Type) : Type := {
  process_cwd : string;
  process_argv2 : option string;
  loadEnv : string -> option string -> Result LoadedEnv;
  isDev : bool;
  loadConfig : string -> option string -> option string -> Completion LoadedConfig;
  importCreateRsbuild : Completion unit;
  createRsbuild : string -> CliConfig -> Completion R;
}.

(** [{ ...a, ...b }] on objects: the keys of [a] in order, overridden by
    [b], then the keys of [b] that [a] lacks. *)
Definition spread (a b : Fields) : Fields :=
  map (fun kv => (fst kv, default (snd kv) (getProp (fst kv) b))) a
  ++ List.filter (fun kv => negb (hasProp (fst kv) a)) b.

(** [!!s] on an optional string. *)
Definition truthyString (s : option string) : bool :=
  match s with Some x => negb (String.eqb x "") | None => false end.

(** init, from [config.source ||= {}] to the last [commonOpts] override. *)
Definition applyCommonOptions (opts : CommonOptions) (envs : LoadedEnv)
    (config : CliConfig) : CliConfig :=
  let source := default {| source_define := None |} (config_source config) in
  let source' :=
    {| source_define :=
         Some (spread (env_publicVars envs)
                      (default [] (source_define source))) |} in
  let dev' :=
    if truthy (opt_open opts)
       && negb (truthy (match config_dev config with
                        | Some d => cli_startUrl d
                        | None => JUndef
                        end))
    then Some {| cli_startUrl := opt_open opts |}
    else config_dev config in
  let server1 :=
    if truthyString (opt_host opts)
    then
      let sv := default {| server_host := None; server_port := JUndef |}
                        (config_server config) in
      Some {| server_host := opt_host opts; server_port := server_port sv |}
    else config_server config in
  let server2 :=
    if truthy (opt_port opts)
    then
      let sv := default {| server_host := None; server_port := JUndef |} server1 in
      Some {| server_host := server_host sv; server_port := opt_port opts |}
    else server1 in
  {| config_source := Some source'; config_dev := dev';
     config_server := server2 |}.

Section Init.
Context {R : Type} `{CliImports R}.

(** [process.argv[2] === 'dev'] *)
Definition isDevCommand : bool :=
  match process_argv2 with
  | Some command => String.eqb command "dev"
  | None => false
  end.

(** init, the body of its [try] block. *)
Definition initBody (cliOptions : option CommonOptions) : Cli (option R) :=
  let root := process_cwd in
  envs ← call (loadEnv root
                 (match cliOptions with
                  | Some o => opt_envMode o
                  | None => None
                  end));
  (if isDev then cliEmit (CliOnBeforeRestartServer (env_cleanup envs))
   else skip);;
  opts ← getCommonOpts;
  loaded ← await (loadConfig root (opt_config opts) (opt_envMode opts));
  let config := lc_content loaded in
  (if isDevCommand
   then
     let files := env_filePaths envs in
     let files' :=
       match lc_filePath loaded with
       | Some path => if String.eqb path "" then files else files ++ [path]
       | None => files
       end in
     cliEmit (CliWatchFiles files')
   else skip);;
  await importCreateRsbuild;;
  opts' ← getCommonOpts;
  let config' := applyCommonOptions opts' envs config in
  cliEmit (CliCreateRsbuild root config');;
  rsbuild ← await (createRsbuild root config');
  mret (Some rsbuild).

(** commands.ts, [init] *)
Definition init (cliOptions : option CommonOptions) (isRestart : option bool)
    : Cli (option R) :=
  (match cliOptions with
   | Some o => setCommonOpts o
   | None => skip
   end);;
  tryCatch (initBody cliOptions)
    (fun err =>
       if default false isRestart
       then cliEmit (CliLoggerError err);; mret None
       else throw err).

(** A step of the re-resolution fails with [e]: loading the env files,
    loading the configuration, importing ../createRsbuild, or
    [createRsbuild] itself. *)
Inductive ReResolutionFails (cliOptions : option CommonOptions)
    (s : CliState) (e : Error) : Prop :=
  | LoadEnvThrows :
      loadEnv process_cwd
        (match cliOptions with Some o => opt_envMode o | None => None end)
      = Err e ->
      ReResolutionFails cliOptions s e
  | LoadConfigRejects (envs : LoadedEnv) :
      loadEnv process_cwd
        (match cliOptions with Some o => opt_envMode o | None => None end)
      = Ok envs ->
      loadConfig process_cwd (opt_config (default (commonOpts s) cliOptions))
        (opt_envMode (default (commonOpts s) cliOptions))
      = Rejected e ->
      ReResolutionFails cliOptions s e
  | ImportRejects (envs : LoadedEnv) (loaded : LoadedConfig) :
      loadEnv process_cwd
        (match cliOptions with Some o => opt_envMode o | None => None end)
      = Ok envs ->
      loadConfig process_cwd (opt_config (default (commonOpts s) cliOptions))
        (opt_envMode (default (commonOpts s) cliOptions))
      = Fulfilled loaded ->
      importCreateRsbuild = Rejected e ->
      ReResolutionFails cliOptions s e
  | CreateRsbuildRejects (envs : LoadedEnv) (loaded : LoadedConfig) :
      loadEnv process_cwd
        (match cliOptions with Some o => opt_envMode o | None => None end)
      = Ok envs ->
      loadConfig process_cwd (opt_config (default (commonOpts s) cliOptions))
        (opt_envMode (default (commonOpts s) cliOptions))
      = Fulfilled loaded ->
      importCreateRsbuild = Fulfilled tt ->
      createRsbuild process_cwd
        (applyCommonOptions (default (commonOpts s) cliOptions) envs
           (lc_content loaded))
      = Rejected e ->
      ReResolutionFails cliOptions s e.

End Init.

(** ** Observations on traces *)

(** How a sequence of callbacks ends for a payload: the first one that does
    not fulfil decides. *)
Fixpoint callbacksOutcome (payload : JsVal) (callbacks : list HookCallback)
    : Completion unit :=
  match callbacks with
  | [] => Fulfilled tt
  | cb :: rest =>
      match cb payload with
      | Fulfilled _ => callbacksOutcome payload rest
      | Rejected e => Rejected e
      | Pending => Pending
      end
  end.

(** The callbacks of a hook that get to run, from position [index] on. *)
Fixpoint callbackEvents (h : HookName) (payload : JsVal) (index : nat)
    (callbacks : list HookCallback) : list Event :=
  match callbacks with
  | [] => []
  | cb :: rest =>
      EvHookCallback h index payload
      :: match cb payload with
         | Fulfilled _ => callbackEvents h payload (S index) rest
         | _ => []
         end
  end.

Definition addEvents (s : RunState) (evs : list Event) : RunState :=
  {| st_env := st_env s; st_devServer := st_devServer s;
     st_settled := st_settled s; st_trace := st_trace s ++ evs |}.

Definition sameHook (a b : HookName) : bool :=
  match a, b with
  | OnBeforeStartDevServer, OnBeforeStartDevServer
  | OnAfterStartDevServer, OnAfterStartDevServer => true
  | _, _ => false
  end.

Definition isHookCall (h : HookName) (e : Event) : bool :=
  match e with EvHookCall h' _ => sameHook h h' | _ => false end.

Definition isHookCallback (h : HookName) (e : Event) : bool :=
  match e with EvHookCallback h' _ _ => sameHook h h' | _ => false end.

Definition isHookReturn (h : HookName) (e : Event) : bool :=
  match e with EvHookReturn h' => sameHook h h' | _ => false end.

Definition isCreateDevServer (e : Event) : bool :=
  match e with EvCreateDevServer _ => true | _ => false end.

Definition isInit (e : Event) : bool :=
  match e with EvInit => true | _ => false end.

Definition isListen (e : Event) : bool :=
  match e with EvListen _ _ => true | _ => false end.

Definition isListenSuccess (e : Event) : bool :=
  match e with EvListenCallback None => true | _ => false end.

Definition isListenError (e : Event) : bool :=
  match e with EvListenCallback (Some _) => true | _ => false end.

Definition isResolve (e : Event) : bool :=
  match e with EvResolve _ _ _ => true | _ => false end.

Definition isGetPort (e : Event) : bool :=
  match e with EvGetPort _ _ _ => true | _ => false end.

(** An event of kind [P] occurs in the trace. *)
Definition occurs (P : Event -> bool) (t : list Event) : bool := existsb P t.

(** The events of kind [P] of the trace, in order. *)
Definition eventsOf (P : Event -> bool) (t : list Event) : list Event :=
  List.filter P t.

(** Every event of kind [Q] comes after some event of kind [P]; [seen]
    tells whether a [P] event came before the trace. *)
Fixpoint precededBy (P Q : Event -> bool) (seen : bool) (t : list Event) : bool :=
  match t with
  | [] => true
  | e :: t' =>
      (if Q e then seen else true) && precededBy P Q (seen || P e) t'
  end.

Definition isLog (e : Event) : bool :=
  match e with EvLog _ _ => true | _ => false end.

(** The address list [startDevServer] computes for a resolved port. *)
Definition computedUrls `{Imports} (options : DevServerContext)
    (opts : StartDevServerOptions) (port : Z) : list UrlEntry :=
  getAddressUrls
    (if serverHttps (default {| so_dev := JUndef |} (o_serverOptions opts))
     then "https" else "http")
    port (cfgHost (ctx_config options)).

(** No event of kind [Q] comes after an event of kind [P]; [seen] tells
    whether a [P] event came before the trace. *)
Fixpoint noneAfter (P Q : Event -> bool) (seen : bool) (t : list Event) : bool :=
  match t with
  | [] => true
  | e :: t' =>
      (if Q e then negb seen else true) && noneAfter P Q (seen || P e) t'
  end.

(** The address list bound to [urls] once the [printURLs] block is passed. *)
Definition shownUrls (printURLs : PrintURLs) (urls : list UrlEntry)
    : list UrlEntry :=
  match printURLs with
  | PrintFn f =>
      match f urls with
      | UrlArray urls' => urls'
      | NotAnArray => urls
      end
  | PrintBool _ => urls
  end.

(** ** A concrete setting *)

(** One choice for the imported modules: port 8080 by default, every
    requested port free, one local address, no colouring. *)
Definition sampleImports : Imports :=
  {| DEFAULT_PORT := 8080;
     DEFAULT_DEV_HOST := "0.0.0.0";
     getAddressUrls := fun protocol port _ =>
       [ {| url := String.append protocol
                     (String.append "://localhost:" (pretty port));
            label := "Local:" |} ];
     getPort := fun requested _ _ => Fulfilled requested;
     cyan := fun s => s |}.

(** A server whose [init] succeeds and whose [listen] behaves as given. *)
Definition sampleServer (behaviour : ListenBehaviour) : ServerApi :=
  {| srv_name := "dev-server";
     srv_init := Fulfilled tt;
     srv_listen := fun _ _ => behaviour |}.

Definition sampleFactory (behaviour : ListenBehaviour)
    : Z -> ServerOptions -> JsVal -> Completion ServerApi :=
  fun _ _ _ => Fulfilled (sampleServer behaviour).

Definition sampleConfig (port : option Z) : RsbuildConfig :=
  {| cfg_dev := Some {| dev_hmr := None; dev_https := JUndef;
                        dev_port := port; dev_host := None |};
     cfg_tools_devServer := JUndef |}.

Definition sampleContext (port : option Z)
    (before after : list HookCallback) : DevServerContext :=
  {| ctx_config := sampleConfig port;
     ctx_onBeforeStartDevServerHook := before;
     ctx_onAfterStartDevServerHook := after |}.

(** A run in the concrete setting, from an empty environment. *)
Abbreviation sampleRun port before after behaviour opts :=
  (@startDevServer sampleImports (sampleContext port before after)
     (sampleFactory behaviour) opts (initialState ∅)).

(** The ordering of hook and factory as a run may be asked to satisfy it:
    every call of the server factory comes after a completed call of the
    before-start hook. *)
Definition beforeHookPrecedesFactory `{Imports} (options : DevServerContext)
    (createDevServer : Z -> ServerOptions -> JsVal -> Completion ServerApi)
    (opts : StartDevServerOptions) (env : gmap string string) : Prop :=
  precededBy (isHookReturn OnBeforeStartDevServer) isCreateDevServer false
    (st_trace (snd (startDevServer options createDevServer opts
                      (initialState env))))
  = true.

(** A command line whose configuration file does not load. *)
Definition sampleCli : CliImports string :=
  {| process_cwd := "/app";
     process_argv2 := Some "dev";
     loadEnv := fun _ _ =>
       Ok {| env_cleanup := "cleanup"; env_filePaths := [".env"];
             env_publicVars := [] |};
     isDev := true;
     loadConfig := fun _ _ _ => Rejected "SyntaxError: invalid config";
     importCreateRsbuild := Fulfilled tt;
     createRsbuild := fun _ _ => Fulfilled "rsbuild" |}.

Definition sampleCliState : CliState :=
  {| commonOpts :=
       {| opt_config := None; opt_envMode := None; opt_open := JUndef;
          opt_host := None; opt_port := JNum 3000 |};
     cli_trace := [] |}.

(** Two callbacks that fulfil. *)
Definition sampleOkCallbacks : list HookCallback :=
  [ fun _ => Fulfilled tt; fun _ => Fulfilled tt ].

(** Three after-start callbacks, the second of which rejects. *)
Definition sampleCallbacks : list HookCallback :=
  [ fun _ => Fulfilled tt; fun _ => Rejected "boom"; fun _ => Fulfilled tt ].

(** ** The client-compiler test *)

(** [v === 'web'] *)
Definition isWebTarget (v : JsVal) : bool :=
  match v with
  | JStr s => String.eqb s "web"
  | _ => false
  end.

(** devServer.ts, [isClientCompiler], on [compiler.options.target]. *)
Definition isClientCompiler (target : JsVal) : bool :=
  if truthy target
  then
    match target with
    | JArr items => existsb isWebTarget items
    | _ => isWebTarget target
    end
  else false.

(** ** The command actions of [runCli] *)

(** The argument [rsbuild.inspectConfig] receives from the inspect command. *)
Record InspectCall : Type := {
  ic_env : string;
  ic_verbose : option bool;
  ic_outputPath : string;
  ic_writeToDisk : bool;
}.

(** What the command actions reach on the instance [init] returns and in
    node: the instance methods with the promises they return, its
    [context.distPath], [existsSync] of node:fs, [join] of node:path and
    [color.yellow]. *)
Class InstanceApi (R : Type) : Type := {
  inst_startDevServer : R -> Completion unit;
  inst_build : R -> option bool -> Completion unit;
  inst_preview : R -> Completion unit;
  inst_inspectConfig : R -> InspectCall -> Completion unit;
  inst_distPath : R -> string;
  existsSync : string -> bool;
  path_join : string -> string -> string;
  color_yellow : string -> string;
}.

(** How a command action ends: it returns, or it ends the process with
    [process.exit(code)]. *)
Inductive ActionEnd : Type :=
  | ActionReturned
  | ProcessExit (code : Z).

Section Actions.
Context {R : Type} `{CliImports R} `{InstanceApi R}.

(** The [catch] block shared by the four actions, with its first message. *)
Definition failWith (banner : string) (err : Error) : Cli ActionEnd :=
  cliEmit (CliLoggerError banner);;
  cliEmit (CliLoggerError err);;
  mret (ProcessExit 1).

(** [rsbuild?.method(...)] *)
Definition optionalCall (rsbuild : option R) (method : R -> Completion unit)
    : Cli unit :=
  match rsbuild with
  | Some r => await (method r)
  | None => skip
  end.

(** runCli, the action of the [dev] command. *)
Definition devAction (options : CommonOptions) : Cli ActionEnd :=
  tryCatch
    (rsbuild ← init (Some options) None;
     optionalCall rsbuild inst_startDevServer;;
     mret ActionReturned)
    (failWith "Failed to start dev server.").

(** runCli, the action of the [build] command; [watch] is [options.watch]. *)
Definition buildAction (options : CommonOptions) (watch : option bool)
    : Cli ActionEnd :=
  tryCatch
    (rsbuild ← init (Some options) None;
     optionalCall rsbuild (fun r => inst_build r watch);;
     mret ActionReturned)
    (failWith "Failed to build.").

(** The error thrown by the preview command for a missing output directory. *)
Definition missingDistMessage (distPath : string) : string :=
  String.append "The output directory "
    (String.append (color_yellow distPath)
       " does not exist, please build the project before previewing.").

(** runCli, the action of the [preview] command. *)
Definition previewAction (options : CommonOptions) : Cli ActionEnd :=
  tryCatch
    (rsbuild ← init (Some options) None;
     (match rsbuild with
      | Some r =>
          if negb (existsSync (inst_distPath r))
          then throw (missingDistMessage (inst_distPath r))
          else skip
      | None => skip
      end);;
     optionalCall rsbuild inst_preview;;
     mret ActionReturned)
    (failWith "Failed to start preview server.").

(** runCli, the action of the [inspect] command; [env], [output] and
    [verbose] are the entries [InspectOptions] adds. *)
Definition inspectAction (options : CommonOptions) (env output : string)
    (verbose : option bool) : Cli ActionEnd :=
  tryCatch
    (rsbuild ← init (Some options) None;
     optionalCall rsbuild
       (fun r =>
          inst_inspectConfig r
            {| ic_env := env; ic_verbose := verbose;
               ic_outputPath := path_join (inst_distPath r) output;
               ic_writeToDisk := true |});;
     mret ActionReturned)
    (failWith "Failed to inspect config.").

End Actions.

Definition isLoggerError (e : CliEvent) : bool :=
  match e with CliLoggerError _ => true | _ => false end.

Definition isWatchFiles (e : CliEvent) : bool :=
  match e with CliWatchFiles _ => true | _ => false end.

Definition isCreateRsbuild (e : CliEvent) : bool :=
  match e with CliCreateRsbuild _ _ => true | _ => false end.

(** ** Writing the inspected configurations *)

(** What [outputInspectConfigFiles] of config.ts reaches outside the
    sources: [join] of node:path, [existsSync] and [outputFile] of fs-extra
    (the promise a write returns), the reading of [Date.now()] while the
    bundler configuration at a position is handled, [upperFirst] of ./utils
    and the colours. *)
Class InspectImports : Type := {
  ins_join : string -> string -> string;
  ins_existsSync : string -> bool;
  ins_outputFile : string -> string -> Completion unit;
  ins_now : nat -> Z;
  ins_upperFirst : string -> string;
  ins_bold : string -> string;
  ins_yellow : string -> string;
  ins_underline : string -> string;
}.

(** One entry of the [files] array. *)
Record InspectFile : Type := {
  file_path : string;
  file_label : string;
  file_content : string;
}.

Inductive InspectEvent : Type :=
  | InspectWrite (path data : string)
  | InspectSuccess (message : string).

Abbreviation Inspect := (Async (list InspectEvent)).

Definition inspectEmit (e : InspectEvent) : Inspect unit :=
  fun s => (Fulfilled tt, s ++ [e]).

(** [s.replace(/suffix$/, replacement)] for a literal suffix: the one place
    where the rest of the string is the suffix is replaced. *)
Fixpoint replaceSuffix (suffix replacement s : string) : string :=
  if String.eqb s suffix then replacement
  else
    match s with
    | EmptyString => EmptyString
    | String c rest => String c (replaceSuffix suffix replacement rest)
    end.

(** [Promise.all] over promises that end as given: rejected when one of
    them is (the first in list order stands for the first in time), pending
    when none is rejected and one never settles. *)
Fixpoint promiseAll (promises : list (Completion unit)) : Completion unit :=
  match promises with
  | [] => Fulfilled tt
  | p :: rest =>
      match p, promiseAll rest with
      | Rejected e, _ => Rejected e
      | _, Rejected e => Rejected e
      | Pending, _ => Pending
      | Fulfilled _, other => other
      end
  end.

Section OutputInspectConfigFiles.
Context `{InspectImports}.

(** outputInspectConfigFiles, the callback of [bundlerConfigs.map]. *)
Definition bundlerFile (outputPath configType : string)
    (targets : list string) (index : nat) (content : string) : InspectFile :=
  let suffix := nth index targets "undefined" in
  let outputFile :=
    String.append configType
      (String.append ".config." (String.append suffix ".mjs")) in
  let outputFilePath := ins_join outputPath outputFile in
  let outputFilePath' :=
    if ins_existsSync outputFilePath
    then replaceSuffix ".mjs"
           (String.append "."
              (String.append (pretty (ins_now index)) ".mjs"))
           outputFilePath
    else outputFilePath in
  {| file_path := outputFilePath';
     file_label :=
       String.append (ins_upperFirst configType)
         (String.append " Config (" (String.append suffix ")"));
     file_content := content |}.

(** [bundlerConfigs.map((content, index) => ...)] from position [index] on. *)
Fixpoint bundlerFiles (outputPath configType : string)
    (targets : list string) (index : nat) (bundlerConfigs : list string)
    : list InspectFile :=
  match bundlerConfigs with
  | [] => []
  | content :: rest =>
      bundlerFile outputPath configType targets index content
      :: bundlerFiles outputPath configType targets (S index) rest
  end.

(** outputInspectConfigFiles, the [files] array. *)
Definition inspectFiles (outputPath configType rawRsbuildConfig : string)
    (targets : list string) (bundlerConfigs : list string)
    : list InspectFile :=
  {| file_path := ins_join outputPath "rsbuild.config.mjs";
     file_label := "Rsbuild Config";
     file_content := rawRsbuildConfig |}
  :: bundlerFiles outputPath configType targets 0 bundlerConfigs.

(** outputInspectConfigFiles, one line of [fileInfos]. *)
Definition fileInfo (item : InspectFile) : string :=
  String.append "  - "
    (String.append (ins_bold (ins_yellow (file_label item)))
       (String.append ": " (ins_underline (file_path item)))).

(** The calls [fse.outputFile(item.path, ...)] made by [files.map]. *)
Fixpoint startWrites (files : list InspectFile) : Inspect unit :=
  match files with
  | [] => skip
  | item :: rest =>
      inspectEmit
        (InspectWrite (file_path item)
           (String.append "export default " (file_content item)));;
      startWrites rest
  end.

(** config.ts, [outputInspectConfigFiles]; [targets] is
    [rsbuildConfig.output.targets]. *)
Definition outputInspectConfigFiles (targets : list string)
    (rawRsbuildConfig : string) (bundlerConfigs : list string)
    (outputPath configType : string) : Inspect unit :=
  let files :=
    inspectFiles outputPath configType rawRsbuildConfig targets
      bundlerConfigs in
  startWrites files;;
  await (promiseAll
           (map (fun item =>
                   ins_outputFile (file_path item)
                     (String.append "export default " (file_content item)))
                files));;
  let fileInfos := String.concat newline (map fileInfo files) in
  inspectEmit
    (InspectSuccess
       (String.append
          "Inspect config succeed, open following files to view the content: "
          (String.append newline
             (String.append newline (String.append fileInfos newline))))).

End OutputInspectConfigFiles.

Definition isInspectWrite (e : InspectEvent) : bool :=
  match e with InspectWrite _ _ => true | _ => false end.

Definition isInspectSuccess (e : InspectEvent) : bool :=
  match e with InspectSuccess _ => true | _ => false end.

(** ** More observations on runs *)

(** The port an event carries: the one handed to the factory, to [listen],
    to the hook callbacks or to [resolve]. *)
Definition eventPort (e : Event) : option Z :=
  match e with
  | EvCreateDevServer p | EvListen _ p | EvResolve p _ _ => Some p
  | EvHookCall _ payload | EvHookCallback _ _ payload =>
      match getPath ["port"] payload with
      | JNum p => Some p
      | _ => None
      end
  | _ => None
  end.

(** Every port carried by the trace is [port]. *)
Definition portsAre (port : Z) (t : list Event) : bool :=
  forallb (fun e =>
             match eventPort e with
             | Some p => Z.eqb p port
             | None => true
             end) t.

(** The log events of the trace all go to [logger]. *)
Definition logsGoTo (logger : Logger) (t : list Event) : bool :=
  forallb (fun e =>
             match e, logger with
             | EvLog DefaultLogger _, DefaultLogger => true
             | EvLog (CustomLogger a) _, CustomLogger b => String.eqb a b
             | EvLog _ _, _ => false
             | _, _ => true
             end) t.

Definition isListenCallback (e : Event) : bool :=
  match e with EvListenCallback _ => true | _ => false end.

Definition notGetPort (e : Event) : bool := negb (isGetPort e).

(** ** More of the concrete setting *)

(** A server whose [init] ends as given. *)
Definition sampleServerWithInit (initEnd : Completion unit)
    (behaviour : ListenBehaviour) : ServerApi :=
  {| srv_name := "dev-server";
     srv_init := initEnd;
     srv_listen := fun _ _ => behaviour |}.

(** A command line whose configuration loads; the instance is its name. *)
Definition sampleCliOk : CliImports string :=
  {| process_cwd := "/app";
     process_argv2 := Some "build";
     loadEnv := fun _ _ =>
       Ok {| env_cleanup := "cleanup"; env_filePaths := [".env"];
             env_publicVars := [("PUBLIC_A", JStr "env")] |};
     isDev := false;
     loadConfig := fun _ _ _ =>
       Fulfilled
         {| lc_content :=
              {| config_source := None; config_dev := None;
                 config_server := None |};
            lc_filePath := Some "/app/rsbuild.config.ts" |};
     importCreateRsbuild := Fulfilled tt;
     createRsbuild := fun _ _ => Fulfilled "rsbuild" |}.

(** An instance whose output directory is missing and whose methods never
    settle. *)
Definition sampleInstance : InstanceApi string :=
  {| inst_startDevServer := fun _ => Rejected "EADDRINUSE";
     inst_build := fun _ _ => Fulfilled tt;
     inst_preview := fun _ => Pending;
     inst_inspectConfig := fun _ _ => Fulfilled tt;
     inst_distPath := fun _ => "/app/dist";
     existsSync := fun _ => false;
     path_join := fun a b => String.append a (String.append "/" b);
     color_yellow := fun s => s |}.

Definition sampleOptions : CommonOptions :=
  {| opt_config := None; opt_envMode := Some "staging"; opt_open := JUndef;
     opt_host := Some "0.0.0.0"; opt_port := JNum 4000 |}.

(** An inspect output directory in which every file already exists. *)
Definition sampleInspect : InspectImports :=
  {| ins_join := fun a b => String.append a (String.append "/" b);
     ins_existsSync := fun _ => true;
     ins_outputFile := fun _ _ => Fulfilled tt;
     ins_now := fun _ => 1700000000000;
     ins_upperFirst := fun s => s;
     ins_bold := fun s => s;
     ins_yellow := fun s => s;
     ins_underline := fun s => s |}.

(** ** Observations on the command line *)


(** [config.server?.port] *)
Definition serverPortOf (config : CliConfig) : JsVal :=
  match config_server config with
  | Some sv => server_port sv
  | None => JUndef
  end.


(** [config.source?.define ?? {}] *)
Definition defineOf (config : CliConfig) : Fields :=
  match config_source config with
  | Some src => default [] (source_define src)
  | None => []
  end.

(** The list handed to [watchFiles]: the env files, then the configuration
    file when there is one. *)
Definition watchedFiles (envs : LoadedEnv) (loaded : LoadedConfig)
    : list string :=
  env_filePaths envs
  ++ match lc_filePath loaded with
     | Some path => if String.eqb path "" then [] else [path]
     | None => []
     end.

(** A command action that ended the process did so with code 1, after
    logging its banner and then the error; and it did not reject. *)
Definition FailsByExit (banner : string)
    (before : CliState) (r : Completion ActionEnd * CliState) : Prop :=
  (forall e, fst r <> Rejected e)
  /\ (forall code, fst r = Fulfilled (ProcessExit code) ->
        code = 1
        /\ exists err earlier,
             cli_trace (snd r)
             = earlier ++ [CliLoggerError banner; CliLoggerError err]).

(** The call [fse.outputFile] receives for an entry of [files]. *)
Definition writeOf (item : InspectFile) : InspectEvent :=
  InspectWrite (file_path item)
    (String.append "export default " (file_content item)).

(** A server factory whose promise ends as given. *)
Definition sampleFactoryOf (outcome : Completion ServerApi)
    : Z -> ServerOptions -> JsVal -> Completion ServerApi :=
  fun _ _ _ => outcome.

(** * Properties *)

(** ** The layered option merger *)

Lemma mergeValue_obj (fd fo : Fields) :
  mergeValue (JObj fd) (JObj fo)
  = JObj (mergeOwn fo fd
          ++ List.filter (fun kv => negb (hasProp (fst kv) fd)) fo).
Proof.
  cbn [mergeValue]. f_equal. f_equal.
  induction fd as [|[k dv] rest IH]; [reflexivity|].
  cbn [mergeOwn]. f_equal. exact IH.
Qed.

Lemma mergeValue_undef (d : JsVal) : mergeValue d JUndef = d.
Proof. destruct d; reflexivity. Qed.

Lemma mergeValue_leaf (d o : JsVal) : isLeaf o = true -> mergeValue d o = o.
Proof. destruct o; try discriminate; intros _; destruct d; reflexivity. Qed.

Lemma mergeValue_onto_non_object (d : JsVal) (fo : Fields) :
  (forall fd, d <> JObj fd) -> mergeValue d (JObj fo) = JObj fo.
Proof. intros Hd. destruct d; try reflexivity. exfalso. eapply Hd. reflexivity. Qed.

Lemma getProp_app (k : string) (a b : Fields) :
  getProp k (a ++ b)
  = match getProp k a with Some v => Some v | None => getProp k b end.
Proof.
  induction a as [|[k' v] a IH]; [reflexivity|].
  cbn [app getProp]. destruct (String.eqb k k'); [reflexivity | exact IH].
Qed.

Lemma getProp_mergeOwn (k : string) (fo fd : Fields) :
  getProp k (mergeOwn fo fd)
  = match getProp k fd with
    | Some dv =>
        Some (match getProp k fo with
              | Some ov => mergeValue dv ov
              | None => dv
              end)
    | None => None
    end.
Proof.
  induction fd as [|[k' dv] fd IH]; [reflexivity|].
  cbn [mergeOwn getProp]. destruct (String.eqb k k') eqn:E.
  - apply String.eqb_eq in E. subst k'. reflexivity.
  - exact IH.
Qed.

Lemma getProp_filter_new (k : string) (fd fo : Fields) :
  getProp k fd = None ->
  getProp k (List.filter (fun kv => negb (hasProp (fst kv) fd)) fo)
  = getProp k fo.
Proof.
  intros Hk. induction fo as [|[k' v] fo IH]; [reflexivity|].
  cbn [List.filter fst getProp]. destruct (String.eqb k k') eqn:E.
  - apply String.eqb_eq in E. subst k'.
    unfold hasProp. rewrite Hk. cbn [negb getProp].
    rewrite String.eqb_refl. reflexivity.
  - destruct (negb (hasProp k' fd)); [|exact IH].
    cbn [getProp]. rewrite E. exact IH.
Qed.

(** Reading below one key of a merged object. *)
Lemma getPath_mergeValue_cons (k : string) (p : list string) (fd fo : Fields) :
  getPath (k :: p) (mergeValue (JObj fd) (JObj fo))
  = getPath p
      (match getProp k fd, getProp k fo with
       | Some dv, Some ov => mergeValue dv ov
       | Some dv, None => dv
       | None, Some ov => ov
       | None, None => JUndef
       end).
Proof.
  rewrite mergeValue_obj. cbn [getPath]. rewrite getProp_app, getProp_mergeOwn.
  destruct (getProp k fd) as [dv|] eqn:Hd.
  - destruct (getProp k fo); reflexivity.
  - rewrite (getProp_filter_new k fd fo Hd).
    destruct (getProp k fo); [reflexivity | destruct p; reflexivity].
Qed.

Lemma getPath_undef (p : list string) : getPath p JUndef = JUndef.
Proof. destruct p; reflexivity. Qed.

Lemma absentAt_getPath (p : list string) :
  forall v, absentAt p v = true -> getPath p v = JUndef.
Proof.
  induction p as [|k p IH]; intros v Habs.
  - destruct v; try discriminate Habs. reflexivity.
  - destruct v as [| | | | | |fs]; try discriminate Habs; try reflexivity.
    cbn [getPath absentAt] in *.
    destruct (getProp k fs); [apply IH; exact Habs | reflexivity].
Qed.

(** A leaf of the override is the value of the merge at that path. *)
Lemma mergeValue_override_leaf (p : list string) :
  forall d o, isLeaf (getPath p o) = true ->
    getPath p (mergeValue d o) = getPath p o.
Proof.
  induction p as [|k p IH]; intros d o Hleaf.
  - cbn [getPath] in *. apply mergeValue_leaf. exact Hleaf.
  - destruct o as [| | | | | |fo]; try discriminate Hleaf.
    destruct d as [| | | | | |fd]; try reflexivity.
    rewrite getPath_mergeValue_cons. cbn [getPath] in *.
    destruct (getProp k fo) as [ov|]; [|discriminate Hleaf].
    destruct (getProp k fd) as [dv|]; [apply IH; exact Hleaf | reflexivity].
Qed.

(** Where the override says nothing, the merge keeps the target. *)
Lemma mergeValue_override_absent (p : list string) :
  forall d o, absentAt p o = true ->
    getPath p (mergeValue d o) = getPath p d.
Proof.
  induction p as [|k p IH]; intros d o Habs.
  - destruct o; try discriminate Habs. cbn [getPath]. apply mergeValue_undef.
  - destruct o as [| | | | | |fo]; try discriminate Habs.
    + rewrite mergeValue_undef. reflexivity.
    + destruct d as [| | | | | |fd];
        try (cbn [mergeValue]; rewrite (absentAt_getPath _ _ Habs); reflexivity).
      rewrite getPath_mergeValue_cons. cbn [getPath absentAt] in *.
      destruct (getProp k fo) as [ov|].
      * destruct (getProp k fd) as [dv|]; [apply IH; exact Habs|].
        apply absentAt_getPath. exact Habs.
      * destruct (getProp k fd); [reflexivity | apply getPath_undef].
Qed.

(** Over whole tiers: a leaf of the overrides is the value of the merge,
    and where the overrides say nothing the defaults stay. *)
Lemma deepmerge_tier_leaf (k : string) (p : list string) (d o : JsVal) :
  isLeaf (getPath (k :: p) o) = true ->
  getPath (k :: p) (deepmerge d o) = getPath (k :: p) o.
Proof.
  intros Hleaf. destruct o as [| | | | | |fo]; try discriminate Hleaf.
  apply mergeValue_override_leaf. exact Hleaf.
Qed.

Lemma deepmerge_tier_absent (p : list string) (d o : JsVal) :
  absentIn p o = true -> getPath p (deepmerge d o) = getPath p d.
Proof.
  intros Habs. destruct o as [| | | | | |fo]; try reflexivity.
  apply mergeValue_override_absent. exact Habs.
Qed.

(** C4: the dev-server options follow the precedence built-in defaults <
    [serverOptions.dev] < [tools.devServer].  At every key path, a leaf of
    [tools.devServer] is the resolved value; where [tools.devServer] says
    nothing, a leaf of [serverOptions.dev] is; where neither says anything
    (as when [serverOptions.dev] is a boolean or missing), the built-in
    default is.  The built-in defaults have [hot] and [liveReload] equal to
    [dev.hmr ?? true], [watch] true and [port] the resolved port. *)
Theorem getDevServerOptions_precedence (rsbuildConfig : RsbuildConfig)
    (serverOptions : ServerOptions) (port : Z) :
  let D := builtinDevConfig rsbuildConfig port in
  let O := so_dev serverOptions in
  let T := cfg_tools_devServer rsbuildConfig in
  exists devConfig,
    getDevServerOptions rsbuildConfig serverOptions port = Ok devConfig
    /\ (forall k p, isLeaf (getPath (k :: p) T) = true ->
          getPath (k :: p) devConfig = getPath (k :: p) T)
    /\ (forall k p, absentIn (k :: p) T = true ->
          isLeaf (getPath (k :: p) O) = true ->
          getPath (k :: p) devConfig = getPath (k :: p) O)
    /\ (forall k p, absentIn (k :: p) T = true ->
          absentIn (k :: p) O = true ->
          getPath (k :: p) devConfig = getPath (k :: p) D)
    /\ getPath ["hot"] D = JBool (nullish (cfgHmr rsbuildConfig) true)
    /\ getPath ["liveReload"] D = JBool (nullish (cfgHmr rsbuildConfig) true)
    /\ getPath ["watch"] D = JBool true
    /\ getPath ["port"] D = JNum port.
Proof.
  intros D O T. eexists. split; [reflexivity|].
  fold D O T. repeat split.
  - intros k p Hleaf. apply deepmerge_tier_leaf. exact Hleaf.
  - intros k p Habs Hleaf.
    rewrite (deepmerge_tier_absent _ _ _ Habs).
    destruct O as [| | | | | |fo] eqn:HO; try discriminate Hleaf.
    unfold orElse. cbn [truthy]. apply deepmerge_tier_leaf. exact Hleaf.
  - intros k p HabsT HabsO.
    rewrite (deepmerge_tier_absent _ _ _ HabsT).
    apply deepmerge_tier_absent. unfold orElse.
    destruct (truthy O); [exact HabsO | reflexivity].
Qed.

(** ** Runs of the start sequence *)

Lemma runCallbacks_run (h : HookName) (payload : JsVal)
    (cbs : list HookCallback) :
  forall index s,
    runCallbacks h payload index cbs s
    = (callbacksOutcome payload cbs,
       addEvents s (callbackEvents h payload index cbs)).
Proof.
  induction cbs as [|cb rest IH]; intros index s.
  - destruct s. unfold addEvents. cbn. rewrite app_nil_r. reflexivity.
  - cbn [runCallbacks callbacksOutcome callbackEvents].
    unfold mbind, Async_bind, emit, await. cbn.
    destruct (cb payload) as [[]| |]; cbn; [|reflexivity..].
    rewrite IH. unfold addEvents. cbn. rewrite <- app_assoc. reflexivity.
Qed.

(** A hook call records its start, the callbacks that ran and, when all of
    them fulfilled, its completion. *)
Lemma hookCall_run (h : HookName) (cbs : list HookCallback) (payload : JsVal)
    (s : RunState) :
  hookCall h cbs payload s
  = match callbacksOutcome payload cbs with
    | Fulfilled _ =>
        (Fulfilled tt,
         addEvents s (EvHookCall h payload
                      :: callbackEvents h payload 0 cbs ++ [EvHookReturn h]))
    | Rejected e =>
        (Rejected e,
         addEvents s (EvHookCall h payload :: callbackEvents h payload 0 cbs))
    | Pending =>
        (Pending,
         addEvents s (EvHookCall h payload :: callbackEvents h payload 0 cbs))
    end.
Proof.
  unfold hookCall, mbind, Async_bind, emit. cbn.
  rewrite runCallbacks_run.
  destruct (callbacksOutcome payload cbs) as [[]| |]; unfold addEvents; cbn;
    rewrite <- ?app_assoc; reflexivity.
Qed.

(** Only callback events are recorded while the callbacks run. *)
Lemma callbackEvents_kind (h : HookName) (payload : JsVal)
    (cbs : list HookCallback) :
  forall index e,
    In e (callbackEvents h payload index cbs) ->
    exists i, e = EvHookCallback h i payload.
Proof.
  induction cbs as [|cb rest IH]; intros index e Hin; [destruct Hin|].
  cbn [callbackEvents] in Hin. destruct Hin as [<-|Hin]; [eauto|].
  destruct (cb payload); [eapply IH; exact Hin | destruct Hin..].
Qed.

Lemma existsb_callbackEvents (P : Event -> bool) (h : HookName)
    (payload : JsVal) (index : nat) (cbs : list HookCallback) :
  (forall i, P (EvHookCallback h i payload) = false) ->
  existsb P (callbackEvents h payload index cbs) = false.
Proof.
  intros HP. apply not_true_is_false. intros Hex.
  apply existsb_exists in Hex. destruct Hex as (e & Hin & HPe).
  apply callbackEvents_kind in Hin. destruct Hin as [i ->].
  rewrite HP in HPe. discriminate.
Qed.

Lemma filter_callbackEvents (P : Event -> bool) (h : HookName)
    (payload : JsVal) (index : nat) (cbs : list HookCallback) :
  (forall i, P (EvHookCallback h i payload) = false) ->
  List.filter P (callbackEvents h payload index cbs) = [].
Proof.
  intros HP. revert index.
  induction cbs as [|cb rest IH]; intros index; [reflexivity|].
  cbn [callbackEvents List.filter]. rewrite HP.
  destruct (cb payload); [apply IH | reflexivity..].
Qed.

Lemma precededBy_app (P Q : Event -> bool) (a b : list Event) :
  forall seen,
    precededBy P Q seen (a ++ b)
    = precededBy P Q seen a && precededBy P Q (seen || existsb P a) b.
Proof.
  induction a as [|e a IH]; intros seen.
  - cbn. rewrite orb_false_r. reflexivity.
  - cbn [app precededBy existsb]. rewrite IH.
    rewrite orb_assoc, andb_assoc. reflexivity.
Qed.

Lemma precededBy_callbackEvents (P Q : Event -> bool) (h : HookName)
    (payload : JsVal) (index : nat) (cbs : list HookCallback) (seen : bool) :
  (forall i, Q (EvHookCallback h i payload) = false) ->
  precededBy P Q seen (callbackEvents h payload index cbs) = true.
Proof.
  intros HQ. revert index seen.
  induction cbs as [|cb rest IH]; intros index seen; [reflexivity|].
  cbn [callbackEvents precededBy]. rewrite HQ. cbn [andb].
  destruct (cb payload); [apply IH | reflexivity..].
Qed.

(** A rejecting callback stops the sequence: the callbacks after it do not
    run, and the call ends with its error. *)
Lemma callbacks_abort_on_rejection (h : HookName) (payload : JsVal)
    (before after : list HookCallback) (cb : HookCallback) (e : Error) :
  Forall (fun f => f payload = Fulfilled tt) before ->
  cb payload = Rejected e ->
  forall index,
    callbacksOutcome payload (before ++ cb :: after) = Rejected e
    /\ length (callbackEvents h payload index (before ++ cb :: after))
       = S (length before).
Proof.
  intros Hbefore Hcb. induction Hbefore as [|f before Hf _ IH]; intros index.
  - cbn. rewrite Hcb. split; reflexivity.
  - cbn [app callbacksOutcome callbackEvents length]. rewrite Hf.
    destruct (IH (S index)) as [-> ->]. split; reflexivity.
Qed.

(** Once an event of the first kind has come, the order test holds. *)
Lemma precededBy_seen (P Q : Event -> bool) (t : list Event) :
  precededBy P Q true t = true.
Proof.
  induction t as [|e t IH]; [reflexivity|].
  cbn [precededBy orb]. rewrite IH. destruct (Q e); reflexivity.
Qed.

(** The callback events of a hook are all of its own kind. *)
Lemma filter_callbackEvents_same (h : HookName) (payload : JsVal)
    (cbs : list HookCallback) :
  forall index,
    List.filter (isHookCallback h) (callbackEvents h payload index cbs)
    = callbackEvents h payload index cbs.
Proof.
  induction cbs as [|cb rest IH]; intros index; [reflexivity|].
  cbn [callbackEvents List.filter isHookCallback].
  assert (Hsame : sameHook h h = true) by (destruct h; reflexivity).
  rewrite Hsame. f_equal. destruct (cb payload); [apply IH | reflexivity..].
Qed.

(** When every callback fulfils, every callback has run. *)
Lemma length_callbackEvents_fulfilled (h : HookName) (payload : JsVal)
    (cbs : list HookCallback) :
  callbacksOutcome payload cbs = Fulfilled tt ->
  forall index,
    length (callbackEvents h payload index cbs) = length cbs.
Proof.
  induction cbs as [|cb rest IH]; intros Hall index; [reflexivity|].
  cbn [callbacksOutcome callbackEvents length] in *.
  destruct (cb payload); [|discriminate Hall..].
  rewrite (IH Hall). reflexivity.
Qed.

Lemma noneAfter_app (P Q : Event -> bool) (a b : list Event) :
  forall seen,
    noneAfter P Q seen (a ++ b)
    = noneAfter P Q seen a && noneAfter P Q (seen || existsb P a) b.
Proof.
  induction a as [|e a IH]; intros seen.
  - cbn. rewrite orb_false_r. reflexivity.
  - cbn [app noneAfter existsb]. rewrite IH.
    rewrite orb_assoc, andb_assoc. reflexivity.
Qed.

(** Callback events before any event of the first kind pass the test. *)
Lemma noneAfter_callbackEvents_left (P Q : Event -> bool) (h : HookName)
    (payload : JsVal) (index : nat) (cbs : list HookCallback) :
  (forall i, P (EvHookCallback h i payload) = false) ->
  noneAfter P Q false (callbackEvents h payload index cbs) = true.
Proof.
  intros HP. revert index.
  induction cbs as [|cb rest IH]; intros index; [reflexivity|].
  cbn [callbackEvents noneAfter negb orb]. rewrite HP.
  destruct (Q _); cbn [andb];
    (destruct (cb payload); [apply IH | reflexivity..]).
Qed.

(** Callback events that are not of the second kind pass the test. *)
Lemma noneAfter_callbackEvents_right (P Q : Event -> bool) (h : HookName)
    (payload : JsVal) (index : nat) (cbs : list HookCallback) (seen : bool) :
  (forall i, Q (EvHookCallback h i payload) = false) ->
  noneAfter P Q seen (callbackEvents h payload index cbs) = true.
Proof.
  intros HQ. revert index seen.
  induction cbs as [|cb rest IH]; intros index seen; [reflexivity|].
  cbn [callbackEvents noneAfter]. rewrite HQ. cbn [andb].
  destruct (cb payload); [apply IH | reflexivity..].
Qed.

Section StartDevServerFacts.
Context `{Imports}.

Lemma setEnv_if (b : bool) (k v : string) (s : RunState) :
  (if b then setEnv k v else skip) s
  = (Fulfilled tt,
     {| st_env := if b then <[k := v]> (st_env s) else st_env s;
        st_devServer := st_devServer s; st_settled := st_settled s;
        st_trace := st_trace s |}).
Proof. destruct b, s; reflexivity. Qed.

Ltac run_unfold :=
  unfold startDevServer, mbind, Async_bind, getEnv;
  rewrite setEnv_if;
  unfold printAndTransform, printServerURLs, listenPromise,
    listenCallback, freshPromise, resolve, mbind, Async_bind, mret,
    Async_ret, emit, await, throw, setDevServer, initialState, addEvents;
  cbn.

Ltac run_hook :=
  rewrite hookCall_run; unfold addEvents; cbn;
  match goal with
  | |- context [callbacksOutcome ?p ?cbs] =>
      let Hcb := fresh "Hcallbacks" in
      destruct (callbacksOutcome p cbs) as [[]| |] eqn:Hcb; cbn
  end.

(** Case analysis on everything a run depends on, in program order. *)
Ltac run_cases opts :=
  run_unfold;
  (destruct (getPort _ _ _) as [?port| |] eqn:?; cbn);
  try (destruct (o_printURLs opts) as [[[]|?f]|] eqn:?; cbn);
  try match goal with
      | |- context [match ?f ?u with NotAnArray => _ | UrlArray _ => _ end] =>
          destruct (f u) eqn:?; cbn
      end;
  try match goal with
      | |- context [match ?create ?a ?b ?c with
                    | Fulfilled _ => _ | Rejected _ => _ | Pending => _
                    end] =>
          destruct (create a b c) as [?server| |] eqn:?; cbn
      end;
  try run_hook;
  try match goal with
      | |- context [srv_init ?sv] =>
          destruct (srv_init sv) as [[]| |] eqn:?; cbn
      end;
  try match goal with
      | |- context [srv_listen ?sv ?h ?p] =>
          destruct (srv_listen sv h p) as [?e|[?e|]|] eqn:?; cbn
      end;
  try run_hook.

(** Boolean observations on a trace with the callback events of the two
    hooks in the middle. *)
Ltac trace_simpl :=
  unfold occurs, eventsOf;
  repeat progress
    (rewrite <- ?app_assoc; cbn;
     rewrite ?existsb_app, ?List.filter_app, ?precededBy_app;
     rewrite ?existsb_callbackEvents by (intro; reflexivity);
     rewrite ?filter_callbackEvents by (intro; reflexivity);
     rewrite ?precededBy_callbackEvents by (intro; reflexivity);
     cbn).


(** Boolean observations on a trace, with the callback events of either
    hook kept where the test asks for them. *)
Ltac trace_norm :=
  unfold occurs, eventsOf;
  repeat progress
    (rewrite <- ?app_assoc; cbn;
     repeat first
       [ rewrite existsb_app
       | rewrite List.filter_app
       | rewrite precededBy_app
       | rewrite noneAfter_app
       | rewrite existsb_callbackEvents by (intro; reflexivity)
       | rewrite filter_callbackEvents by (intro; reflexivity)
       | rewrite filter_callbackEvents_same
       | rewrite precededBy_callbackEvents by (intro; reflexivity)
       | rewrite precededBy_seen
       | rewrite noneAfter_callbackEvents_left by (intro; reflexivity)
       | rewrite noneAfter_callbackEvents_right by (intro; reflexivity)
       | rewrite app_nil_r ];
     cbn).

(** C7: [startDevServer] sets [NODE_ENV] to [development] exactly when it
    was unset or empty at entry, leaves it as it is otherwise, and changes
    no other environment variable. *)
Theorem startDevServer_node_env (options : DevServerContext)
    (createDevServer : Z -> ServerOptions -> JsVal -> Completion ServerApi)
    (opts : StartDevServerOptions) (env : gmap string string) :
  let s := snd (startDevServer options createDevServer opts (initialState env)) in
  st_env s
  = (if envFalsy (env !! "NODE_ENV")
     then <["NODE_ENV" := "development"]> env
     else env)
  /\ (forall k, k <> "NODE_ENV" -> st_env s !! k = env !! k).
Proof.
  cbn zeta.
  assert (Henv : st_env (snd (startDevServer options createDevServer opts
                                (initialState env)))
                 = if envFalsy (env !! "NODE_ENV")
                   then <["NODE_ENV" := "development"]> env else env).
  { run_cases opts; reflexivity. }
  split; [exact Henv|].
  intros k Hk. rewrite Henv.
  destruct (envFalsy (env !! "NODE_ENV")); [|reflexivity].
  apply lookup_insert_ne. congruence.
Qed.

(** C10: the port asked of the resolver is [dev.port] when that is
    truthy and [DEFAULT_PORT] otherwise; a configured port of 0 gives the
    same run as no configured port. *)
Theorem startDevServer_requested_port (options : DevServerContext)
    (createDevServer : Z -> ServerOptions -> JsVal -> Completion ServerApi)
    (opts : StartDevServerOptions) (env : gmap string string) :
  let cfg := ctx_config options in
  let t := st_trace (snd (startDevServer options createDevServer opts
                            (initialState env))) in
  eventsOf isGetPort t
  = [EvGetPort (requestedPort cfg) (default false (o_strictPort opts))
       (o_getPortSilently opts)]
  /\ (forall d p, cfg_dev cfg = Some d -> dev_port d = Some p -> p <> 0 ->
        requestedPort cfg = p)
  /\ (forall d, cfg_dev cfg = Some d ->
        dev_port d = Some 0 \/ dev_port d = None ->
        requestedPort cfg = DEFAULT_PORT)
  /\ (cfg_dev cfg = None -> requestedPort cfg = DEFAULT_PORT)
  /\ (forall hmr https host s,
        let withPort p :=
          {| ctx_config :=
               {| cfg_dev := Some {| dev_hmr := hmr; dev_https := https;
                                     dev_port := p; dev_host := host |};
                  cfg_tools_devServer := cfg_tools_devServer cfg |};
             ctx_onBeforeStartDevServerHook :=
               ctx_onBeforeStartDevServerHook options;
             ctx_onAfterStartDevServerHook :=
               ctx_onAfterStartDevServerHook options |} in
        startDevServer (withPort (Some 0)) createDevServer opts s
        = startDevServer (withPort None) createDevServer opts s).
Proof.
  cbn zeta. split; [|repeat split].
  - run_cases opts; trace_simpl; reflexivity.
  - intros d p Hd Hp Hnz. unfold requestedPort. rewrite Hd, Hp.
    destruct (Z.eqb_spec p 0); [contradiction | reflexivity].
  - intros d Hd [Hp|Hp]; unfold requestedPort; rewrite Hd, Hp; reflexivity.
  - intros Hd. unfold requestedPort. rewrite Hd. reflexivity.
Qed.

(** Splits the conjunctions of the goal and leaves its implications
    closed. *)
Ltac split_all := repeat match goal with |- _ /\ _ => split end.

(** C1: in a run whose listen callback reports success, the port was
    resolved and the server created; the after-start hook is called
    exactly once, with [{ port }], and runs the registered callbacks in
    order until one does not fulfil; its call completes exactly when all of
    them fulfil; the promise resolves only after that completion, and does
    resolve once it has, with every callback run and none run afterwards;
    otherwise the promise stays pending.  The value it resolves with is
    [{ port, urls, server }] with the resolved port and the [url] fields of
    the list left by the [printURLs] block. *)
Theorem startDevServer_listen_success (options : DevServerContext)
    (createDevServer : Z -> ServerOptions -> JsVal -> Completion ServerApi)
    (opts : StartDevServerOptions) (env : gmap string string) :
  let run := startDevServer options createDevServer opts (initialState env) in
  let t := st_trace (snd run) in
  occurs isListenSuccess t = true ->
  exists port server,
    let payload := JObj [("port", JNum port)] in
    let callbacks := ctx_onAfterStartDevServerHook options in
    getPort (requestedPort (ctx_config options))
      (default false (o_strictPort opts)) (o_getPortSilently opts)
    = Fulfilled port
    /\ createDevServer port
         (default {| so_dev := JUndef |} (o_serverOptions opts))
         (o_compiler opts)
       = Fulfilled server
    /\ eventsOf (isHookCall OnAfterStartDevServer) t
       = [EvHookCall OnAfterStartDevServer payload]
    /\ eventsOf (isHookCallback OnAfterStartDevServer) t
       = callbackEvents OnAfterStartDevServer payload 0 callbacks
    /\ precededBy (isHookCall OnAfterStartDevServer)
         (isHookCallback OnAfterStartDevServer) false t = true
    /\ precededBy (isHookReturn OnAfterStartDevServer) isResolve false t = true
    /\ noneAfter isResolve (isHookCallback OnAfterStartDevServer) false t
       = true
    /\ (occurs (isHookReturn OnAfterStartDevServer) t = true
        <-> callbacksOutcome payload callbacks = Fulfilled tt)
    /\ (forall e, fst run <> Rejected e)
    /\ (forall r, fst run = Fulfilled r ->
          callbacksOutcome payload callbacks = Fulfilled tt
          /\ length (eventsOf (isHookCallback OnAfterStartDevServer) t)
             = length callbacks
          /\ occurs (isHookReturn OnAfterStartDevServer) t = true
          /\ r = {| res_port := port;
                    res_urls :=
                      map url
                        (shownUrls (default (PrintBool true) (o_printURLs opts))
                           (computedUrls options opts port));
                    res_server := server |})
    /\ (callbacksOutcome payload callbacks = Fulfilled tt ->
        exists r, fst run = Fulfilled r)
    /\ (callbacksOutcome payload callbacks <> Fulfilled tt ->
        fst run = Pending).
Proof.
  cbn zeta. unfold computedUrls, shownUrls.
  run_cases opts; trace_norm; intros Hocc; try discriminate Hocc.
  all: eexists; eexists; (split; [reflexivity|]); (split; [eassumption|]).
  all: repeat split; trace_norm; try reflexivity; try discriminate;
    try congruence.
  all: intros; simplify_eq; repeat split; trace_norm;
    repeat match goal with
           | Hf : ?f ?u = UrlArray _ |- context [?f ?u] => rewrite Hf
           end;
    try reflexivity; try congruence; eauto;
    try (erewrite length_callbackEvents_fulfilled by eassumption;
         reflexivity).
Qed.

(** C2, as the code has it: the server factory is called, and its promise
    awaited, before the before-start hook is called; the hook then runs the
    registered before-start callbacks in order, and [server.init()] and
    [server.listen()] are called only when every one of them has
    fulfilled, after the last of them. *)
Theorem startDevServer_before_hook_order (options : DevServerContext)
    (createDevServer : Z -> ServerOptions -> JsVal -> Completion ServerApi)
    (opts : StartDevServerOptions) (env : gmap string string) :
  let t := st_trace (snd (startDevServer options createDevServer opts
                            (initialState env))) in
  let callbacks := ctx_onBeforeStartDevServerHook options in
  precededBy isCreateDevServer (isHookCall OnBeforeStartDevServer) false t
  = true
  /\ precededBy isCreateDevServer (isHookCallback OnBeforeStartDevServer)
       false t = true
  /\ precededBy (isHookReturn OnBeforeStartDevServer) isInit false t = true
  /\ precededBy (isHookReturn OnBeforeStartDevServer) isListen false t = true
  /\ noneAfter isInit (isHookCallback OnBeforeStartDevServer) false t = true
  /\ noneAfter isListen (isHookCallback OnBeforeStartDevServer) false t = true
  /\ (occurs (isHookCall OnBeforeStartDevServer) t = true ->
      (exists port server,
         getPort (requestedPort (ctx_config options))
           (default false (o_strictPort opts)) (o_getPortSilently opts)
         = Fulfilled port
         /\ createDevServer port
              (default {| so_dev := JUndef |} (o_serverOptions opts))
              (o_compiler opts)
            = Fulfilled server)
      /\ eventsOf (isHookCallback OnBeforeStartDevServer) t
         = callbackEvents OnBeforeStartDevServer JUndef 0 callbacks
      /\ (occurs (isHookReturn OnBeforeStartDevServer) t = true
          <-> callbacksOutcome JUndef callbacks = Fulfilled tt))
  /\ (occurs isInit t = true ->
      callbacksOutcome JUndef callbacks = Fulfilled tt
      /\ length (eventsOf (isHookCallback OnBeforeStartDevServer) t)
         = length callbacks)
  /\ (occurs isListen t = true ->
      callbacksOutcome JUndef callbacks = Fulfilled tt).
Proof.
  cbn zeta.
  run_cases opts; split_all; trace_norm; try reflexivity; intros Hocc;
    try discriminate Hocc.
  all: split_all; trace_norm; try reflexivity; try congruence; eauto.
  all: try (split; intros; trace_norm; congruence).
  all: try (erewrite length_callbackEvents_fulfilled by eassumption;
            reflexivity).
Qed.

(** A rejected port resolution rejects the returned promise with the same
    error, and the after-start hook is not touched. *)
Lemma startDevServer_port_rejection (options : DevServerContext)
    (createDevServer : Z -> ServerOptions -> JsVal -> Completion ServerApi)
    (opts : StartDevServerOptions) (env : gmap string string) (e : Error) :
  let run := startDevServer options createDevServer opts (initialState env) in
  getPort (requestedPort (ctx_config options))
    (default false (o_strictPort opts)) (o_getPortSilently opts)
  = Rejected e ->
  fst run = Rejected e
  /\ occurs (isHookCall OnAfterStartDevServer) (st_trace (snd run)) = false
  /\ occurs (isHookCallback OnAfterStartDevServer) (st_trace (snd run)) = false
  /\ occurs isCreateDevServer (st_trace (snd run)) = false.
Proof.
  cbn zeta. intros Hport. run_unfold. rewrite Hport. cbn. repeat split.
Qed.

(** The promise returned by the listen callback rejects with the error
    the callback received. *)
Lemma listenCallback_error (options : DevServerContext) (port : Z)
    (urls : list UrlEntry) (server : ServerApi) (e : Error) (s : RunState) :
  listenCallback options port urls server (Some e) s = (Rejected e, s).
Proof. reflexivity. Qed.

(** When the listen callback receives an error, the after-start hook is
    not touched, and the returned promise neither resolves nor rejects. *)
Lemma startDevServer_listen_error (options : DevServerContext)
    (createDevServer : Z -> ServerOptions -> JsVal -> Completion ServerApi)
    (opts : StartDevServerOptions) (env : gmap string string) :
  let run := startDevServer options createDevServer opts (initialState env) in
  occurs isListenError (st_trace (snd run)) = true ->
  fst run = Pending
  /\ occurs (isHookCall OnAfterStartDevServer) (st_trace (snd run)) = false
  /\ occurs (isHookCallback OnAfterStartDevServer) (st_trace (snd run)) = false
  /\ occurs isResolve (st_trace (snd run)) = false.
Proof.
  cbn zeta. run_cases opts; trace_simpl; intros Hocc;
    try discriminate Hocc; repeat split.
Qed.

(** A rejecting before-start callback rejects the returned promise, and
    neither [init] nor [listen] is called. *)
Lemma startDevServer_before_hook_rejection (options : DevServerContext)
    (createDevServer : Z -> ServerOptions -> JsVal -> Completion ServerApi)
    (opts : StartDevServerOptions) (env : gmap string string) (e : Error) :
  let run := startDevServer options createDevServer opts (initialState env) in
  occurs (isHookCall OnBeforeStartDevServer) (st_trace (snd run)) = true ->
  callbacksOutcome JUndef (ctx_onBeforeStartDevServerHook options)
  = Rejected e ->
  fst run = Rejected e
  /\ occurs isInit (st_trace (snd run)) = false
  /\ occurs isListen (st_trace (snd run)) = false.
Proof.
  cbn zeta. intros Hocc Hrej. revert Hocc.
  run_cases opts; trace_simpl; intros Hocc; try discriminate Hocc;
    try congruence.
  all: repeat split; congruence.
Qed.

(** A rejecting after-start callback leaves the returned promise pending:
    [resolve] is never reached and nothing rejects the promise. *)
Lemma startDevServer_after_hook_rejection (options : DevServerContext)
    (createDevServer : Z -> ServerOptions -> JsVal -> Completion ServerApi)
    (opts : StartDevServerOptions) (env : gmap string string)
    (port : Z) (e : Error) :
  let run := startDevServer options createDevServer opts (initialState env) in
  getPort (requestedPort (ctx_config options))
    (default false (o_strictPort opts)) (o_getPortSilently opts)
  = Fulfilled port ->
  occurs (isHookCall OnAfterStartDevServer) (st_trace (snd run)) = true ->
  callbacksOutcome (JObj [("port", JNum port)])
    (ctx_onAfterStartDevServerHook options)
  = Rejected e ->
  fst run = Pending
  /\ occurs isResolve (st_trace (snd run)) = false.
Proof.
  cbn zeta. intros Hport Hocc Hrej. revert Hocc.
  run_cases opts; trace_simpl; intros Hocc; try discriminate Hocc;
    try congruence.
  all: repeat split; congruence.
Qed.

(** C6: with a function as [printURLs] and a resolved port, a return value
    that is not an array makes [startDevServer] throw before the server
    factory is called; an array it returns is the list that is printed
    and the list whose [url] fields the result carries. *)
Theorem startDevServer_printURLs_function (options : DevServerContext)
    (createDevServer : Z -> ServerOptions -> JsVal -> Completion ServerApi)
    (opts : StartDevServerOptions) (env : gmap string string)
    (f : list UrlEntry -> PrintResult) (port : Z) :
  let run := startDevServer options createDevServer opts (initialState env) in
  let t := st_trace (snd run) in
  o_printURLs opts = Some (PrintFn f) ->
  getPort (requestedPort (ctx_config options))
    (default false (o_strictPort opts)) (o_getPortSilently opts)
  = Fulfilled port ->
  (f (computedUrls options opts port) = NotAnArray ->
     fst run
     = Rejected "Please return an array in the `printURLs` function."
     /\ occurs isCreateDevServer t = false
     /\ occurs isLog t = false)
  /\ (forall urls, f (computedUrls options opts port) = UrlArray urls ->
        eventsOf isLog t
        = [EvLog (default DefaultLogger (o_logger opts))
             (serverURLsMessage urls)]
        /\ (forall r, fst run = Fulfilled r -> res_urls r = map url urls)).
Proof.
  cbn zeta. unfold computedUrls. intros Hprint Hport. split.
  - intros Hf. run_unfold. rewrite Hport, Hprint. cbn. rewrite Hf. cbn.
    repeat split.
  - intros urls Hf. revert Hprint.
    run_cases opts; intros Hprint; try discriminate Hprint;
      injection Hprint as ->; try congruence.
    all: trace_simpl; split; [congruence|]; intros r Hr; try discriminate Hr.
    all: injection Hr as <-; cbn; congruence.
Qed.

(** Every callback event satisfies a test that all callback events of the
    hook and payload satisfy. *)
Lemma forallb_callbackEvents (P : Event -> bool) (h : HookName)
    (payload : JsVal) (index : nat) (cbs : list HookCallback) :
  (forall i, P (EvHookCallback h i payload) = true) ->
  forallb P (callbackEvents h payload index cbs) = true.
Proof.
  intros HP. revert index.
  induction cbs as [|cb rest IH]; intros index; [reflexivity|].
  cbn [callbackEvents forallb]. rewrite HP. cbn [andb].
  destruct (cb payload); [apply IH | reflexivity..].
Qed.

Ltac ports_simpl :=
  unfold portsAre, logsGoTo;
  repeat progress
    (rewrite <- ?app_assoc; cbn;
     rewrite ?forallb_app;
     rewrite ?forallb_callbackEvents
       by (intro; cbn; rewrite ?Z.eqb_refl; reflexivity);
     rewrite ?Z.eqb_refl; cbn).

(** X1: [options.context.devServer] is written exactly when the port has
    been resolved, with the resolved port, the host and https flag taken
    from [serverOptions.dev] and the [open] option; a later failure does not
    undo it. *)
Theorem startDevServer_context_recorded (options : DevServerContext)
    (createDevServer : Z -> ServerOptions -> JsVal -> Completion ServerApi)
    (opts : StartDevServerOptions) (env : gmap string string) :
  let so := default {| so_dev := JUndef |} (o_serverOptions opts) in
  st_devServer (snd (startDevServer options createDevServer opts
                       (initialState env)))
  = match getPort (requestedPort (ctx_config options))
            (default false (o_strictPort opts)) (o_getPortSilently opts) with
    | Fulfilled port =>
        Some {| ds_hostname := serverHost so; ds_port := port;
                ds_https := serverHttps so; ds_open := o_open opts |}
    | _ => None
    end.
Proof.
  cbn zeta. run_cases opts; reflexivity.
Qed.

(** X2: once the port is resolved, it is the only port of the run: the
    factory, [listen], the after-start payload and the result all carry
    it. *)
Theorem startDevServer_one_port (options : DevServerContext)
    (createDevServer : Z -> ServerOptions -> JsVal -> Completion ServerApi)
    (opts : StartDevServerOptions) (env : gmap string string) (port : Z) :
  let run := startDevServer options createDevServer opts (initialState env) in
  getPort (requestedPort (ctx_config options))
    (default false (o_strictPort opts)) (o_getPortSilently opts)
  = Fulfilled port ->
  portsAre port (st_trace (snd run)) = true
  /\ (forall r, fst run = Fulfilled r -> res_port r = port).
Proof.
  cbn zeta. intros Hport.
  run_cases opts; simplify_eq.
  all: split; [ports_simpl; reflexivity|].
  all: intros r Hr; try discriminate Hr; injection Hr as <-; reflexivity.
Qed.

(** X3: the address list is printed at most once, to the logger of the
    options (the default logger when none is given), and not at all when
    [printURLs] is false or the port is not resolved. *)
Theorem startDevServer_prints_once (options : DevServerContext)
    (createDevServer : Z -> ServerOptions -> JsVal -> Completion ServerApi)
    (opts : StartDevServerOptions) (env : gmap string string) :
  let t := st_trace (snd (startDevServer options createDevServer opts
                            (initialState env))) in
  (length (eventsOf isLog t) <= 1)%nat
  /\ logsGoTo (default DefaultLogger (o_logger opts)) t = true
  /\ (o_printURLs opts = Some (PrintBool false) -> occurs isLog t = false)
  /\ ((forall port,
         getPort (requestedPort (ctx_config options))
           (default false (o_strictPort opts)) (o_getPortSilently opts)
         <> Fulfilled port) ->
      occurs isLog t = false).
Proof.
  cbn zeta.
  run_cases opts; trace_simpl; repeat split; try lia; try congruence;
    try (intros Hnone; exfalso; eapply Hnone; reflexivity);
    try (ports_simpl; destruct (o_logger opts) as [[|name]|]; cbn;
         rewrite ?String.eqb_refl; reflexivity).
Qed.

(** X4: when the server factory rejects, the returned promise rejects with
    the same error and nothing further happens: no hook is called, and
    there is no [init] and no [listen]. *)
Theorem startDevServer_factory_rejection (options : DevServerContext)
    (createDevServer : Z -> ServerOptions -> JsVal -> Completion ServerApi)
    (opts : StartDevServerOptions) (env : gmap string string)
    (port : Z) (e : Error) :
  let run := startDevServer options createDevServer opts (initialState env) in
  let t := st_trace (snd run) in
  getPort (requestedPort (ctx_config options))
    (default false (o_strictPort opts)) (o_getPortSilently opts)
  = Fulfilled port ->
  createDevServer port (default {| so_dev := JUndef |} (o_serverOptions opts))
    (o_compiler opts)
  = Rejected e ->
  occurs isCreateDevServer t = true ->
  fst run = Rejected e
  /\ occurs (isHookCall OnBeforeStartDevServer) t = false
  /\ occurs (isHookCall OnAfterStartDevServer) t = false
  /\ occurs isInit t = false
  /\ occurs isListen t = false.
Proof.
  cbn zeta. intros Hport Hcreate.
  run_cases opts; simplify_eq; try congruence;
    trace_simpl; intros Hocc; try discriminate Hocc.
  all: repeat split; congruence.
Qed.

(** X5: when [server.init()] rejects, the returned promise rejects with the
    same error and [listen] is never called; the before-start hook has
    completed by then. *)
Theorem startDevServer_init_rejection (options : DevServerContext)
    (createDevServer : Z -> ServerOptions -> JsVal -> Completion ServerApi)
    (opts : StartDevServerOptions) (env : gmap string string)
    (port : Z) (server : ServerApi) (e : Error) :
  let run := startDevServer options createDevServer opts (initialState env) in
  let t := st_trace (snd run) in
  getPort (requestedPort (ctx_config options))
    (default false (o_strictPort opts)) (o_getPortSilently opts)
  = Fulfilled port ->
  createDevServer port (default {| so_dev := JUndef |} (o_serverOptions opts))
    (o_compiler opts)
  = Fulfilled server ->
  srv_init server = Rejected e ->
  occurs isInit t = true ->
  fst run = Rejected e
  /\ occurs (isHookReturn OnBeforeStartDevServer) t = true
  /\ occurs isListen t = false
  /\ occurs (isHookCall OnAfterStartDevServer) t = false.
Proof.
  cbn zeta. intros Hport Hcreate Hinit.
  run_cases opts; simplify_eq; try congruence;
    trace_simpl; intros Hocc; try discriminate Hocc.
  all: repeat split; congruence.
Qed.

(** X6: when [listen] throws instead of calling back, the returned promise
    rejects with what it threw; when [listen] returns and never calls back,
    the promise stays pending.  The after-start hook is called in neither
    case. *)
Theorem startDevServer_listen_without_callback (options : DevServerContext)
    (createDevServer : Z -> ServerOptions -> JsVal -> Completion ServerApi)
    (opts : StartDevServerOptions) (env : gmap string string)
    (port : Z) (server : ServerApi) :
  let run := startDevServer options createDevServer opts (initialState env) in
  let t := st_trace (snd run) in
  let so := default {| so_dev := JUndef |} (o_serverOptions opts) in
  getPort (requestedPort (ctx_config options))
    (default false (o_strictPort opts)) (o_getPortSilently opts)
  = Fulfilled port ->
  createDevServer port so (o_compiler opts) = Fulfilled server ->
  occurs isListen t = true ->
  (forall e, srv_listen server (serverHost so) port = ListenThrows e ->
     fst run = Rejected e
     /\ occurs (isHookCall OnAfterStartDevServer) t = false)
  /\ (srv_listen server (serverHost so) port = ListenNoCallback ->
      fst run = Pending
      /\ occurs (isHookCall OnAfterStartDevServer) t = false).
Proof.
  cbn zeta. intros Hport Hcreate.
  run_cases opts; simplify_eq; try congruence;
    trace_simpl; intros Hocc; try discriminate Hocc.
  all: split; [intros e0 Hl | intros Hl]; split; congruence.
Qed.

(** X7: the returned promise is fulfilled exactly when [resolve] has been
    called, which happens at most once; its value is the one [resolve]
    received. *)
Theorem startDevServer_fulfilled_iff_resolved (options : DevServerContext)
    (createDevServer : Z -> ServerOptions -> JsVal -> Completion ServerApi)
    (opts : StartDevServerOptions) (env : gmap string string) :
  let run := startDevServer options createDevServer opts (initialState env) in
  let t := st_trace (snd run) in
  (occurs isResolve t = true <-> exists r, fst run = Fulfilled r)
  /\ (length (eventsOf isResolve t) <= 1)%nat
  /\ (forall r, fst run = Fulfilled r ->
        st_settled (snd run) = Some r
        /\ eventsOf isResolve t
           = [EvResolve (res_port r) (res_urls r) (srv_name (res_server r))]).
Proof.
  cbn zeta.
  run_cases opts; trace_simpl.
  all: split;
    [ split;
      [ intros Hx; try discriminate Hx; eauto
      | intros [r Hr]; try discriminate Hr; reflexivity ]
    | split;
      [ lia
      | intros r Hr; try discriminate Hr; injection Hr as <-;
        trace_simpl; split; reflexivity ] ].
Qed.

(** X8: the stages of a run come in order: nothing is done before the port
    is requested, the addresses are printed before the factory is called,
    [init] comes before [listen], [listen] before its callback, and the
    after-start hook is called only after a successful callback. *)
Theorem startDevServer_stage_order (options : DevServerContext)
    (createDevServer : Z -> ServerOptions -> JsVal -> Completion ServerApi)
    (opts : StartDevServerOptions) (env : gmap string string) :
  let t := st_trace (snd (startDevServer options createDevServer opts
                            (initialState env))) in
  precededBy isGetPort notGetPort false t = true
  /\ (occurs isLog t = true ->
      precededBy isLog isCreateDevServer false t = true)
  /\ precededBy isInit isListen false t = true
  /\ precededBy isListen isListenCallback false t = true
  /\ precededBy isListenSuccess (isHookCall OnAfterStartDevServer) false t
     = true.
Proof.
  cbn zeta. run_cases opts; repeat split; trace_simpl;
    rewrite ?precededBy_seen; try reflexivity;
    intros Hlog; try discriminate Hlog; trace_simpl;
    rewrite ?precededBy_seen; reflexivity.
Qed.

End StartDevServerFacts.

(** ** The compiler-event bridge *)

(** C8: for the compiler named [server] no registration point is called;
    for any other compiler exactly three calls are made: [onInvalid] on
    [compile], [onInvalid] on [invalid] and [onDone] on [done]. *)
Theorem setupServerHooks_registrations {F : Type} (compiler : CompilerLike)
    (hookCallbacks : ServerCallbacks F) :
  let calls := setupServerHooks compiler hookCallbacks in
  (compiler_name compiler = Some "server" -> calls = [])
  /\ (compiler_name compiler <> Some "server" ->
      calls
      = [ {| tap_point := HookCompile; tap_name := "modern-dev-server";
             tap_fn := onInvalid hookCallbacks |};
          {| tap_point := HookInvalid; tap_name := "modern-dev-server";
             tap_fn := onInvalid hookCallbacks |};
          {| tap_point := HookDone; tap_name := "modern-dev-server";
             tap_fn := onDone hookCallbacks |} ]
      /\ length calls = 3%nat
      /\ length (tapsOn HookCompile calls) = 1%nat
      /\ length (tapsOn HookInvalid calls) = 1%nat
      /\ length (tapsOn HookDone calls) = 1%nat).
Proof.
  cbn zeta. unfold setupServerHooks, isServerCompiler. split.
  - intros ->. reflexivity.
  - intros Hname. destruct (compiler_name compiler) as [n|].
    + destruct (String.eqb_spec n "server") as [->|_];
        [contradiction | repeat split].
    + repeat split.
Qed.

(** ** The command-line entry point *)

Section InitFacts.
Context {R : Type} `{CliImports R}.

Lemma cliEmit_if (b : bool) (e : CliEvent) (s : CliState) :
  (if b then cliEmit e else skip) s
  = (Fulfilled tt,
     {| commonOpts := commonOpts s;
        cli_trace := cli_trace s ++ (if b then [e] else []) |}).
Proof.
  destruct b, s; cbn; rewrite ?app_nil_r; reflexivity.
Qed.

(** C9: when a step of the re-resolution fails with [e], [init] called
    with [isRestart] true hands [e] to [logger.error] and returns
    [undefined] instead of throwing; without [isRestart] it throws [e]. *)
Theorem init_restart_failure (cliOptions : option CommonOptions)
    (s : CliState) (e : Error) :
  ReResolutionFails cliOptions s e ->
  (fst (init cliOptions (Some true) s) = Fulfilled None
   /\ last (cli_trace (snd (init cliOptions (Some true) s)))
      = Some (CliLoggerError e))
  /\ fst (init cliOptions None s) = Rejected e
  /\ fst (init cliOptions (Some false) s) = Rejected e.
Proof.
  intros Hfail.
  unfold init, tryCatch, initBody, mbind, Async_bind, mret, Async_ret,
    setCommonOpts, getCommonOpts, call, await, throw.
  destruct Hfail as [Henv|envs Henv Hcfg|envs loaded Henv Hcfg Himp
                    |envs loaded Henv Hcfg Himp Hcreate];
    destruct cliOptions as [o|]; cbn in *; rewrite Henv; cbn;
    rewrite ?cliEmit_if; cbn; try (rewrite Hcfg; cbn);
    rewrite ?cliEmit_if; cbn; try (rewrite Himp; cbn);
    unfold cliEmit; cbn; try (rewrite Hcreate; cbn);
    rewrite ?last_snoc; repeat split.
Qed.

End InitFacts.

(** ** The properties at concrete inputs *)

(** With [tools.devServer = { client: { port: '443' } }] over
    [serverOptions.dev = { port: 4000, client: { host: 'lan' } }], the tool
    value wins at [client.port], the injected one at [port] and
    [client.host], and the built-in default at [watch]. *)
Lemma getDevServerOptions_precedence_witness :
  exists devConfig,
    getDevServerOptions
      {| cfg_dev := None;
         cfg_tools_devServer :=
           JObj [("client", JObj [("port", JStr "443")])] |}
      {| so_dev := JObj [("port", JNum 4000);
                         ("client", JObj [("host", JStr "lan")])] |}
      3000
    = Ok devConfig
    /\ getPath ["client"; "port"] devConfig = JStr "443"
    /\ getPath ["port"] devConfig = JNum 4000
    /\ getPath ["client"; "host"] devConfig = JStr "lan"
    /\ getPath ["watch"] devConfig = JBool true.
Proof.
  destruct (getDevServerOptions_precedence
              {| cfg_dev := None;
                 cfg_tools_devServer :=
                   JObj [("client", JObj [("port", JStr "443")])] |}
              {| so_dev := JObj [("port", JNum 4000);
                                 ("client", JObj [("host", JStr "lan")])] |}
              3000)
    as (devConfig & Hrun & Htool & Hserver & Hdefault & _).
  exists devConfig. split; [exact Hrun|]. repeat split.
  - apply (Htool "client" ["port"]). reflexivity.
  - apply (Hserver "port" []); reflexivity.
  - apply (Hserver "client" ["host"]); reflexivity.
  - apply (Hdefault "watch" []); reflexivity.
Defined.

(** A tier that is not an object has no keys: with [serverOptions.dev =
    true] and a function for [tools.devServer], the built-in defaults come
    out as they are. *)
Example getDevServerOptions_non_object_tiers_example :
  getDevServerOptions
    {| cfg_dev := None; cfg_tools_devServer := JFun "(config) => undefined" |}
    {| so_dev := JBool true |} 3000
  = Ok (builtinDevConfig
          {| cfg_dev := None;
             cfg_tools_devServer := JFun "(config) => undefined" |} 3000).
Proof. reflexivity. Qed.

(** A run with two after-start callbacks that reaches a successful listen
    callback: both callbacks get [{ port: 8080 }], in order, and the promise
    resolves with the resolved port, the printed address and the created
    server. *)
Lemma startDevServer_listen_success_witness :
  occurs isListenSuccess
    (st_trace (snd (sampleRun None [] sampleOkCallbacks (ListenCallback None)
                      noOptions)))
  = true
  /\ fst (sampleRun None [] sampleOkCallbacks (ListenCallback None) noOptions)
     = Fulfilled {| res_port := 8080;
                    res_urls := ["http://localhost:8080"];
                    res_server := sampleServer (ListenCallback None) |}
  /\ eventsOf (isHookCallback OnAfterStartDevServer)
       (st_trace (snd (sampleRun None [] sampleOkCallbacks
                         (ListenCallback None) noOptions)))
     = [ EvHookCallback OnAfterStartDevServer 0 (JObj [("port", JNum 8080)]);
         EvHookCallback OnAfterStartDevServer 1 (JObj [("port", JNum 8080)]) ].
Proof.
  assert (Hocc : occurs isListenSuccess
            (st_trace (snd (sampleRun None [] sampleOkCallbacks
                              (ListenCallback None) noOptions))) = true)
    by (vm_compute; reflexivity).
  split; [exact Hocc|].
  pose proof (@startDevServer_listen_success sampleImports
                (sampleContext None [] sampleOkCallbacks)
                (sampleFactory (ListenCallback None))
                noOptions ∅ Hocc) as Hsuccess.
  destruct Hsuccess
    as (port & server & Hport & Hcreate & _ & Hcallbacks & _ & _ & _ & _ & _
        & Hres & Hdone & _).
  injection Hport as <-. injection Hcreate as <-.
  destruct (Hdone eq_refl) as [r Hr].
  destruct (Hres r Hr) as (_ & _ & _ & Hshape).
  split.
  - rewrite Hr, Hshape. reflexivity.
  - rewrite Hcallbacks. reflexivity.
Defined.

(** The before-start hook does not come first: in this run the server
    factory is called before the before-start hook has been called at
    all. *)
Lemma beforeHookPrecedesFactory_counterexample :
  ~ @beforeHookPrecedesFactory sampleImports (sampleContext None [] [])
      (sampleFactory (ListenCallback None)) noOptions ∅.
Proof. vm_compute. discriminate. Qed.

(** A run with two before-start callbacks that reaches [server.init()]:
    both callbacks have run, in order, and fulfilled. *)
Lemma startDevServer_before_hook_order_witness :
  occurs isInit
    (st_trace (snd (sampleRun None sampleOkCallbacks [] (ListenCallback None)
                      noOptions)))
  = true
  /\ callbacksOutcome JUndef sampleOkCallbacks = Fulfilled tt
  /\ eventsOf (isHookCallback OnBeforeStartDevServer)
       (st_trace (snd (sampleRun None sampleOkCallbacks []
                         (ListenCallback None) noOptions)))
     = [ EvHookCallback OnBeforeStartDevServer 0 JUndef;
         EvHookCallback OnBeforeStartDevServer 1 JUndef ].
Proof.
  assert (Hocc : occurs isInit
            (st_trace (snd (sampleRun None sampleOkCallbacks []
                              (ListenCallback None) noOptions))) = true)
    by (vm_compute; reflexivity).
  assert (Hcall : occurs (isHookCall OnBeforeStartDevServer)
            (st_trace (snd (sampleRun None sampleOkCallbacks []
                              (ListenCallback None) noOptions))) = true)
    by (vm_compute; reflexivity).
  split; [exact Hocc|].
  pose proof (@startDevServer_before_hook_order sampleImports
                (sampleContext None sampleOkCallbacks [])
                (sampleFactory (ListenCallback None))
                noOptions ∅) as Horder.
  destruct Horder as (_ & _ & _ & _ & _ & _ & Hcalled & Hinit & _).
  destruct (Hinit Hocc) as [Hall _].
  destruct (Hcalled Hcall) as (_ & Hcallbacks & _).
  split; [exact Hall|].
  rewrite Hcallbacks. reflexivity.
Defined.

(** C3: the port is free, the server is created and initialised, and
    [listen] calls back with an error.  The after-start hook is not called,
    but the returned promise stays pending instead of rejecting with the
    error. *)
Theorem startDevServer_listen_error_pending :
  fst (sampleRun (Some 3000) [] [] (ListenCallback (Some "EADDRINUSE"))
         noOptions)
  = Pending
  /\ last (st_trace (snd (sampleRun (Some 3000) [] []
                            (ListenCallback (Some "EADDRINUSE")) noOptions)))
     = Some (EvListenCallback (Some "EADDRINUSE"))
  /\ occurs (isHookCall OnAfterStartDevServer)
       (st_trace (snd (sampleRun (Some 3000) [] []
                         (ListenCallback (Some "EADDRINUSE")) noOptions)))
     = false.
Proof. vm_compute. repeat split. Qed.

(** C5: the second of three after-start callbacks rejects.  The third
    callback does not run, but the returned promise stays pending instead
    of rejecting with the error. *)
Theorem startDevServer_after_hook_rejection_pending :
  fst (sampleRun (Some 3000) [] sampleCallbacks (ListenCallback None) noOptions)
  = Pending
  /\ eventsOf (isHookCallback OnAfterStartDevServer)
       (st_trace (snd (sampleRun (Some 3000) [] sampleCallbacks
                         (ListenCallback None) noOptions)))
     = [ EvHookCallback OnAfterStartDevServer 0 (JObj [("port", JNum 3000)]);
         EvHookCallback OnAfterStartDevServer 1 (JObj [("port", JNum 3000)]) ]
  /\ callbacksOutcome (JObj [("port", JNum 3000)]) sampleCallbacks
     = Rejected "boom".
Proof. vm_compute. repeat split. Qed.

(** The same callbacks on the before-start hook do reject the promise. *)
Example startDevServer_before_hook_rejection_example :
  fst (sampleRun (Some 3000) sampleCallbacks [] (ListenCallback None) noOptions)
  = Rejected "boom".
Proof. vm_compute. reflexivity. Qed.

(** A [printURLs] function that returns no array. *)
Lemma startDevServer_printURLs_function_witness :
  fst (@startDevServer sampleImports (sampleContext None [] [])
         (sampleFactory (ListenCallback None))
         {| o_open := JUndef; o_compiler := JUndef;
            o_printURLs := Some (PrintFn (fun _ => NotAnArray));
            o_strictPort := None; o_serverOptions := None; o_logger := None;
            o_getPortSilently := None |}
         (initialState ∅))
  = Rejected "Please return an array in the `printURLs` function.".
Proof.
  pose proof (@startDevServer_printURLs_function sampleImports
                (sampleContext None [] []) (sampleFactory (ListenCallback None))
                {| o_open := JUndef; o_compiler := JUndef;
                   o_printURLs := Some (PrintFn (fun _ => NotAnArray));
                   o_strictPort := None; o_serverOptions := None;
                   o_logger := None; o_getPortSilently := None |}
                ∅ (fun _ => NotAnArray) 8080 eq_refl eq_refl) as Hprint.
  destruct Hprint as [Hthrow _].
  exact (proj1 (Hthrow eq_refl)).
Defined.

(** A [printURLs] function that keeps the addresses and adds one. *)
Example startDevServer_printURLs_array_example :
  fst (@startDevServer sampleImports (sampleContext None [] [])
         (sampleFactory (ListenCallback None))
         {| o_open := JUndef; o_compiler := JUndef;
            o_printURLs :=
              Some (PrintFn (fun urls =>
                UrlArray (urls ++ [ {| url := "http://dev.local";
                                       label := "Alias:" |} ])));
            o_strictPort := None; o_serverOptions := None; o_logger := None;
            o_getPortSilently := None |}
         (initialState ∅))
  = Fulfilled {| res_port := 8080;
                 res_urls := ["http://localhost:8080"; "http://dev.local"];
                 res_server := sampleServer (ListenCallback None) |}.
Proof. vm_compute. reflexivity. Qed.

(** From an empty environment, another variable stays unset. *)
Lemma startDevServer_node_env_witness :
  "PATH" <> "NODE_ENV"
  /\ st_env (snd (sampleRun None [] [] (ListenCallback None) noOptions))
       !! "PATH"
     = (∅ : gmap string string) !! "PATH".
Proof.
  split; [discriminate|].
  apply (proj2 (@startDevServer_node_env sampleImports
                  (sampleContext None [] [])
                  (sampleFactory (ListenCallback None)) noOptions ∅)).
  discriminate.
Defined.

(** A configured port of 3000 is the port requested. *)
Lemma startDevServer_requested_port_witness :
  3000 <> 0
  /\ @requestedPort sampleImports (sampleConfig (Some 3000)) = 3000.
Proof.
  split; [lia|].
  pose proof (@startDevServer_requested_port sampleImports
                (sampleContext (Some 3000) [] [])
                (sampleFactory (ListenCallback None)) noOptions ∅) as Hport.
  destruct Hport as (_ & Htruthy & _).
  apply (Htruthy _ 3000 eq_refl eq_refl). lia.
Defined.

(** A configured port of 0 asks for the default port. *)
Example requestedPort_zero :
  @requestedPort sampleImports (sampleConfig (Some 0)) = 8080.
Proof. reflexivity. Qed.

(** A client compiler gets the three registrations. *)
Lemma setupServerHooks_registrations_witness :
  Some "client" <> Some "server"
  /\ length (setupServerHooks {| compiler_name := Some "client" |}
               {| onInvalid := "onInvalid"; onDone := "onDone" |})
     = 3%nat.
Proof.
  assert (Hname : Some "client" <> Some "server") by discriminate.
  split; [exact Hname|].
  destruct (setupServerHooks_registrations
              {| compiler_name := Some "client" |}
              {| onInvalid := "onInvalid"; onDone := "onDone" |})
    as [_ Hother].
  exact (proj1 (proj2 (Hother Hname))).
Defined.

(** The server compiler gets none. *)
Example setupServerHooks_server_example :
  setupServerHooks {| compiler_name := Some "server" |}
    {| onInvalid := "onInvalid"; onDone := "onDone" |}
  = [].
Proof. reflexivity. Qed.

(** A configuration that fails to load on restart is logged, not thrown. *)
Lemma init_restart_failure_witness :
  @ReResolutionFails string sampleCli None sampleCliState
    "SyntaxError: invalid config"
  /\ fst (@init string sampleCli None (Some true) sampleCliState)
     = Fulfilled None
  /\ fst (@init string sampleCli None None sampleCliState)
     = Rejected "SyntaxError: invalid config".
Proof.
  assert (Hfail : @ReResolutionFails string sampleCli None sampleCliState
                    "SyntaxError: invalid config").
  { eapply LoadConfigRejects; reflexivity. }
  split; [exact Hfail|].
  destruct (@init_restart_failure string sampleCli None sampleCliState
              "SyntaxError: invalid config" Hfail)
    as [[Hrestart _] [Hthrow _]].
  split; [exact Hrestart | exact Hthrow].
Defined.

(** ** Strings *)

Lemma append_cons (c : ascii) (s t : string) :
  String.append (String c s) t = String c (String.append s t).
Proof. reflexivity. Qed.

Lemma append_empty_l (s : string) : String.append "" s = s.
Proof. reflexivity. Qed.

Lemma append_empty_r (s : string) : String.append s "" = s.
Proof.
  induction s as [|c s IH]; [reflexivity|].
  rewrite append_cons, IH. reflexivity.
Qed.

Lemma append_assoc (a b c : string) :
  String.append (String.append a b) c = String.append a (String.append b c).
Proof.
  induction a as [|x a IH]; [reflexivity|].
  rewrite !append_cons, IH. reflexivity.
Qed.

Lemma length_append (a b : string) :
  String.length (String.append a b) = (String.length a + String.length b)%nat.
Proof.
  induction a as [|x a IH]; [reflexivity|].
  rewrite append_cons. cbn [String.length]. rewrite IH. reflexivity.
Qed.

Lemma concat_empty_cons (x : string) (l : list string) :
  String.concat "" (x :: l) = String.append x (String.concat "" l).
Proof.
  destruct l as [|y l]; cbn [String.concat].
  - rewrite append_empty_r. reflexivity.
  - rewrite append_empty_l. reflexivity.
Qed.

Lemma concat_empty_app (a b : list string) :
  String.concat "" (a ++ b)
  = String.append (String.concat "" a) (String.concat "" b).
Proof.
  induction a as [|x a IH]; [reflexivity|].
  rewrite <- app_comm_cons, !concat_empty_cons, IH, append_assoc. reflexivity.
Qed.

Lemma length_spaces (n : nat) :
  String.length (String.concat "" (replicate n " ")) = n.
Proof.
  induction n as [|n IH]; [reflexivity|].
  cbn [replicate]. rewrite concat_empty_cons, length_append, IH. reflexivity.
Qed.

Lemma utf16Length_append (a b : string) :
  utf16Length (String.append a b) = (utf16Length a + utf16Length b)%nat.
Proof.
  induction a as [|x a IH]; [reflexivity|].
  rewrite append_cons. cbn [utf16Length]. rewrite IH. lia.
Qed.

Lemma utf16Length_spaces (n : nat) :
  utf16Length (String.concat "" (replicate n " ")) = n.
Proof.
  induction n as [|n IH]; [reflexivity|].
  cbn [replicate]. rewrite concat_empty_cons, utf16Length_append, IH.
  reflexivity.
Qed.

(** ** Printing the addresses *)

(** X11: the printed message is built entry by entry, in order: the message
    of two lists put together is the two messages put together, and the
    message of no address is empty. *)
Theorem serverURLsMessage_app `{Imports} (a b : list UrlEntry) :
  serverURLsMessage (a ++ b)
  = String.append (serverURLsMessage a) (serverURLsMessage b)
  /\ serverURLsMessage [] = "".
Proof.
  split; [|reflexivity].
  unfold serverURLsMessage. rewrite map_app. apply concat_empty_app.
Qed.

(** X12: the line of an entry is ["  > "], the label padded with spaces to
    ten UTF-16 code units, the coloured url and a line break; a label of
    ten code units or more is kept whole, so the urls of shorter labels
    start in the same column. *)
Theorem serverURLsMessage_line `{Imports} (u : UrlEntry) :
  serverURLsMessage [u]
  = String.append "  > "
      (String.append (padEnd 10 (label u))
         (String.append (cyan (url u)) newline))
  /\ utf16Length (padEnd 10 (label u))
     = Nat.max 10 (utf16Length (label u))
  /\ padEnd 10 (label u)
     = String.append (label u)
         (String.concat "" (replicate (10 - utf16Length (label u)) " ")).
Proof.
  split; [|split].
  - unfold serverURLsMessage. cbn [map String.concat].
    rewrite !append_assoc. reflexivity.
  - unfold padEnd. rewrite utf16Length_append, utf16Length_spaces. lia.
  - reflexivity.
Qed.

(** A label with a two-byte letter counts seven code units and gets three
    spaces. *)
Example padEnd_accented_example :
  utf16Length "Réseau:" = 7%nat
  /\ padEnd 10 "Réseau:" = "Réseau:   "
  /\ padEnd 10 "Local:" = "Local:    "
  /\ padEnd 10 "A long label:" = "A long label:".
Proof. repeat split. Qed.

(** ** The client-compiler test *)

(** X13: a compiler counts as a client compiler exactly when its target is
    the string [web] or an array with the string [web] among its elements;
    a missing or empty target never does. *)
Theorem isClientCompiler_iff (target : JsVal) :
  isClientCompiler target = true
  <-> target = JStr "web"
      \/ exists items, target = JArr items /\ In (JStr "web") items.
Proof.
  unfold isClientCompiler. split.
  - destruct target as [| | |s| |items|]; cbn; try discriminate.
    + destruct b; discriminate.
    + destruct (negb (Z.eqb n 0)); discriminate.
    + destruct (negb (String.eqb s "")); [|discriminate].
      intros Hweb. apply String.eqb_eq in Hweb. left. congruence.
    + intros Hex. right. exists items. split; [reflexivity|].
      apply existsb_exists in Hex. destruct Hex as (x & Hin & Hx).
      destruct x; try discriminate Hx. cbn in Hx.
      apply String.eqb_eq in Hx. subst. exact Hin.
  - intros [->|(items & -> & Hin)]; [reflexivity|].
    cbn. apply existsb_exists. exists (JStr "web"). split; [exact Hin|reflexivity].
Qed.

(** ** The dev-server options without overrides *)

(** X14: with a falsy [serverOptions.dev] and no [tools.devServer], the
    dev-server options are the built-in defaults, unchanged. *)
Theorem getDevServerOptions_defaults (rsbuildConfig : RsbuildConfig)
    (serverOptions : ServerOptions) (port : Z) :
  truthy (so_dev serverOptions) = false ->
  cfg_tools_devServer rsbuildConfig = JUndef ->
  getDevServerOptions rsbuildConfig serverOptions port
  = Ok (builtinDevConfig rsbuildConfig port).
Proof.
  intros Hdev Htools. unfold getDevServerOptions, orElse.
  rewrite Hdev, Htools. reflexivity.
Qed.

(** ** More on the command-line entry point *)

Lemma getProp_map_default (k : string) (a b : Fields) :
  getProp k (map (fun kv => (fst kv, default (snd kv) (getProp (fst kv) b))) a)
  = match getProp k a with
    | Some v => Some (default v (getProp k b))
    | None => None
    end.
Proof.
  induction a as [|[k' v] a IH]; [reflexivity|].
  cbn [map getProp fst snd]. destruct (String.eqb k k') eqn:E; [|exact IH].
  apply String.eqb_eq in E. subst k'. reflexivity.
Qed.

(** Reading a key of [{ ...a, ...b }]: [b] wins, [a] fills in. *)
Lemma getProp_spread (k : string) (a b : Fields) :
  getProp k (spread a b)
  = match getProp k b with
    | Some v => Some v
    | None => getProp k a
    end.
Proof.
  unfold spread. rewrite getProp_app, getProp_map_default.
  destruct (getProp k a) as [v|] eqn:Ha.
  - destruct (getProp k b); reflexivity.
  - rewrite (getProp_filter_new k a b Ha). destruct (getProp k b); reflexivity.
Qed.

(** X15: in the configuration handed to [createRsbuild], a key of
    [source.define] has the value the configuration file gives it, and the
    public env variable of that name only when the file gives none. *)
Theorem applyCommonOptions_define (opts : CommonOptions) (envs : LoadedEnv)
    (config : CliConfig) (k : string) :
  getProp k (defineOf (applyCommonOptions opts envs config))
  = match getProp k (defineOf config) with
    | Some v => Some v
    | None => getProp k (env_publicVars envs)
    end.
Proof.
  unfold applyCommonOptions, defineOf. cbn.
  rewrite getProp_spread.
  destruct (config_source config) as [src|]; reflexivity.
Qed.


(** [rsbuild dev --port 0]: the typed port replaces the port 3000 of the
    configuration file. *)
Example applyCommonOptions_port_zero_example :
  serverPortOf
    (applyCommonOptions
       {| opt_config := None; opt_envMode := None; opt_open := JUndef;
          opt_host := None; opt_port := JStr "0" |}
       {| env_cleanup := "cleanup"; env_filePaths := [];
          env_publicVars := [] |}
       {| config_source := None; config_dev := None;
          config_server :=
            Some {| server_host := None; server_port := JNum 3000 |} |})
  = JStr "0".
Proof. reflexivity. Qed.

Section InitMore.
Context {R : Type} `{CliImports R}.

Ltac init_unfold :=
  unfold init, tryCatch, initBody, mbind, Async_bind, mret, Async_ret,
    setCommonOpts, getCommonOpts, call, await, throw.

Ltac init_steps cliOptions :=
  init_unfold;
  destruct cliOptions as [?o|]; cbn;
  (destruct (loadEnv _ _) as [?envs|?e] eqn:?; cbn);
  rewrite ?cliEmit_if; cbn;
  try (destruct (loadConfig _ _ _) as [?loaded| |] eqn:?; cbn);
  rewrite ?cliEmit_if; cbn;
  try (destruct importCreateRsbuild as [[]| |] eqn:?; cbn);
  unfold cliEmit; cbn;
  try (destruct (createRsbuild _ _) as [?r| |] eqn:?; cbn).

Ltac init_cases cliOptions isRestart :=
  init_steps cliOptions; try (destruct isRestart as [[]|]; cbn).

(** X17: [commonOpts] holds the options of the last call that brought
    some: a call with options stores them, a call without (a restart)
    leaves the stored ones as they are, whatever else happens. *)
Theorem init_commonOpts (cliOptions : option CommonOptions)
    (isRestart : option bool) (s : CliState) :
  commonOpts (snd (init cliOptions isRestart s))
  = default (commonOpts s) cliOptions.
Proof.
  init_cases cliOptions isRestart; reflexivity.
Qed.

(** X18: called with [isRestart] true, [init] never rejects; called
    without it, or with false, [init] never returns [undefined]. *)
Theorem init_outcomes (cliOptions : option CommonOptions) (s : CliState) :
  (forall e, fst (init cliOptions (Some true) s) <> Rejected e)
  /\ fst (init cliOptions None s) <> Fulfilled None
  /\ fst (init cliOptions (Some false) s) <> Fulfilled None.
Proof.
  split; [intros e Heq | split; intros Heq]; revert Heq;
    init_steps cliOptions; discriminate.
Qed.

(** X19: [watchFiles] is called only for the [dev] command and only once
    the env files and the configuration have loaded; it then gets the env
    files followed by the configuration file, also when a later step
    fails. *)
Theorem init_watchFiles (cliOptions : option CommonOptions)
    (isRestart : option bool) (s : CliState) :
  let opts := default (commonOpts s) cliOptions in
  List.filter isWatchFiles (cli_trace (snd (init cliOptions isRestart s)))
  = List.filter isWatchFiles (cli_trace s)
    ++ match loadEnv process_cwd
               (match cliOptions with
                | Some o => opt_envMode o
                | None => None
                end),
             loadConfig process_cwd (opt_config opts) (opt_envMode opts) with
       | Ok envs, Fulfilled loaded =>
           if isDevCommand then [CliWatchFiles (watchedFiles envs loaded)]
           else []
       | _, _ => []
       end.
Proof.
  cbn zeta. unfold watchedFiles.
  init_cases cliOptions isRestart;
    rewrite <- ?app_assoc, ?List.filter_app; cbn;
    rewrite ?List.filter_app; cbn;
    destruct isDev, isDevCommand; cbn; rewrite ?app_nil_r; try reflexivity.
  all: repeat match goal with
         | |- context [lc_filePath ?l] => destruct (lc_filePath l) as [p|]
         | |- context [String.eqb ?p ""] => destruct (String.eqb p "")
         end; cbn; rewrite ?app_nil_r; reflexivity.
Qed.

End InitMore.

(** ** The command actions *)

Section ActionFacts.
Context {R : Type} `{CliImports R} `{InstanceApi R}.

(** An action body that can only return normally, run under the shared
    [catch] block, fails by exit. *)
Lemma guarded_fails_by_exit (body : Cli ActionEnd) (banner : string)
    (s : CliState) :
  (forall a s1, body s = (Fulfilled a, s1) -> a = ActionReturned) ->
  FailsByExit banner s (tryCatch body (failWith banner) s).
Proof.
  intros Hbody. unfold FailsByExit, tryCatch.
  destruct (body s) as [[a|e|] s1] eqn:Hrun.
  - rewrite (Hbody a s1 eq_refl). cbn. split; [discriminate|].
    intros code Hcode. discriminate Hcode.
  - unfold failWith, mbind, Async_bind, cliEmit, mret, Async_ret. cbn.
    split; [discriminate|]. intros code Hcode. injection Hcode as <-.
    split; [reflexivity|]. exists e, (cli_trace s1).
    rewrite <- app_assoc. reflexivity.
  - cbn. split; [discriminate|]. intros code Hcode. discriminate Hcode.
Qed.

(** The bodies of the four actions return [ActionReturned] or nothing. *)
Lemma action_body_returns (options : CommonOptions)
    (step : option R -> Cli unit) (s : CliState) (a : ActionEnd)
    (s1 : CliState) :
  (rsbuild ← init (Some options) None; step rsbuild;; mret ActionReturned) s
  = (Fulfilled a, s1) ->
  a = ActionReturned.
Proof.
  unfold mbind, Async_bind, mret, Async_ret.
  destruct (init (Some options) None s) as [[rsbuild|e|] s0];
    [|discriminate..].
  destruct (step rsbuild s0) as [[[]|e|] s2]; [|discriminate..].
  intros Heq. injection Heq as <- _. reflexivity.
Qed.

(** X20: none of the four command actions rejects: a failure of [init] or
    of the instance method ends in [process.exit(1)], after the banner of
    the command and then the error have gone to [logger.error]. *)
Theorem actions_fail_by_exit (options : CommonOptions) (watch : option bool)
    (env output : string) (verbose : option bool) (s : CliState) :
  FailsByExit "Failed to start dev server." s (devAction options s)
  /\ FailsByExit "Failed to build." s (buildAction options watch s)
  /\ FailsByExit "Failed to start preview server." s (previewAction options s)
  /\ FailsByExit "Failed to inspect config." s
       (inspectAction options env output verbose s).
Proof.
  split; [|split; [|split]].
  - apply (guarded_fails_by_exit _ _ s). intros a s1. apply action_body_returns.
  - apply (guarded_fails_by_exit _ _ s). intros a s1. apply action_body_returns.
  - apply (guarded_fails_by_exit _ _ s). intros a s1.
    unfold mbind, Async_bind, mret, Async_ret, optionalCall, await, skip,
      throw.
    destruct (init (Some options) None s) as [[[r|]|e|] s0];
      try discriminate; cbn.
    + destruct (negb (existsSync (inst_distPath r))); cbn; try discriminate.
      destruct (inst_preview r) as [[]|e|]; cbn; try discriminate.
      intros Heq. injection Heq as <- _. reflexivity.
    + intros Heq. injection Heq as <- _. reflexivity.
  - apply (guarded_fails_by_exit _ _ s). intros a s1. apply action_body_returns.
Qed.

(** X21: the dev command is [init] followed by [startDevServer] of the
    instance: it returns when both fulfil, leaving the trace of [init]
    untouched, exits when either rejects and hangs when either never
    settles. *)
Theorem devAction_outcome (options : CommonOptions) (s : CliState) :
  fst (devAction options s)
  = match fst (init (Some options) None s) with
    | Fulfilled (Some r) =>
        match inst_startDevServer r with
        | Fulfilled _ => Fulfilled ActionReturned
        | Rejected _ => Fulfilled (ProcessExit 1)
        | Pending => Pending
        end
    | Fulfilled None => Fulfilled ActionReturned
    | Rejected _ => Fulfilled (ProcessExit 1)
    | Pending => Pending
    end
  /\ (fst (devAction options s) = Fulfilled ActionReturned ->
      snd (devAction options s) = snd (init (Some options) None s)).
Proof.
  unfold devAction, tryCatch, optionalCall, failWith, mbind, Async_bind,
    mret, Async_ret, await, skip, cliEmit.
  destruct (init (Some options) None s) as [[[r|]|e|] s0]; cbn;
    try (split; [reflexivity | intros Hx; try discriminate Hx; reflexivity]).
  destruct (inst_startDevServer r) as [[]|e|]; cbn;
    split; try reflexivity; intros Hx; try discriminate Hx; reflexivity.
Qed.

(** X22: when the output directory of the instance does not exist, the
    preview command exits with code 1 after logging that the project must
    be built first, whatever the [preview] method would do; when it exists,
    the command ends as [preview] does. *)
Theorem previewAction_dist_check (options : CommonOptions) (s s0 : CliState)
    (r : R) :
  init (Some options) None s = (Fulfilled (Some r), s0) ->
  (existsSync (inst_distPath r) = false ->
   previewAction options s
   = (Fulfilled (ProcessExit 1),
      {| commonOpts := commonOpts s0;
         cli_trace :=
           cli_trace s0
           ++ [CliLoggerError "Failed to start preview server.";
               CliLoggerError (missingDistMessage (inst_distPath r))] |}))
  /\ (existsSync (inst_distPath r) = true ->
      fst (previewAction options s)
      = match inst_preview r with
        | Fulfilled _ => Fulfilled ActionReturned
        | Rejected _ => Fulfilled (ProcessExit 1)
        | Pending => Pending
        end).
Proof.
  intros Hinit.
  unfold previewAction, tryCatch, optionalCall, failWith, mbind, Async_bind,
    mret, Async_ret, await, skip, cliEmit, throw.
  rewrite Hinit. split; intros Hexists; rewrite Hexists; cbn.
  - rewrite <- app_assoc. reflexivity.
  - destruct (inst_preview r) as [[]|e|]; reflexivity.
Qed.

End ActionFacts.

(** ** Writing the inspected configurations *)

Lemma eqb_length_neq (a b : string) :
  String.length a <> String.length b -> String.eqb a b = false.
Proof.
  intros Hlen. apply String.eqb_neq. intros ->. apply Hlen. reflexivity.
Qed.

(** Replacing a suffix that is there swaps it for the replacement. *)
Lemma replaceSuffix_append (suffix replacement stem : string) :
  replaceSuffix suffix replacement (String.append stem suffix)
  = String.append stem replacement.
Proof.
  induction stem as [|c stem IH].
  - rewrite !append_empty_l. destruct suffix; cbn [replaceSuffix];
      rewrite String.eqb_refl; reflexivity.
  - rewrite !append_cons. cbn [replaceSuffix].
    rewrite eqb_length_neq
      by (cbn [String.length]; rewrite length_append; lia).
    rewrite IH. reflexivity.
Qed.

Lemma promiseAll_fulfilled (promises : list (Completion unit)) :
  promiseAll promises = Fulfilled tt
  <-> Forall (fun p => p = Fulfilled tt) promises.
Proof.
  induction promises as [|p rest IH]; cbn [promiseAll].
  - split; [constructor | reflexivity].
  - split.
    + intros Hall. destruct p as [[]|e|]; destruct (promiseAll rest) as [[]|e'|];
        try discriminate Hall. constructor; [reflexivity | apply IH; reflexivity].
    + intros Hall. apply Forall_cons in Hall as [-> Hrest].
      apply IH in Hrest. rewrite Hrest. reflexivity.
Qed.

Lemma promiseAll_rejected (promises : list (Completion unit)) (e : Error) :
  promiseAll promises = Rejected e -> In (Rejected e) promises.
Proof.
  induction promises as [|p rest IH]; cbn [promiseAll]; [discriminate|].
  intros Hrej. destruct p as [[]|e0|].
  - right. apply IH. destruct (promiseAll rest); congruence.
  - left. congruence.
  - right. apply IH. destruct (promiseAll rest); congruence.
Qed.

Section InspectFacts.
Context `{InspectImports}.

Lemma startWrites_run (files : list InspectFile) (s : list InspectEvent) :
  startWrites files s = (Fulfilled tt, s ++ map writeOf files).
Proof.
  revert s. induction files as [|item rest IH]; intros s.
  - cbn. rewrite app_nil_r. reflexivity.
  - cbn [startWrites map]. unfold mbind, Async_bind, inspectEmit.
    rewrite IH, <- app_assoc. reflexivity.
Qed.

Lemma filter_writes (files : list InspectFile) :
  List.filter isInspectWrite (map writeOf files) = map writeOf files.
Proof.
  induction files as [|item rest IH]; [reflexivity|].
  cbn [map List.filter writeOf isInspectWrite]. rewrite IH. reflexivity.
Qed.

Lemma bundlerFiles_length (outputPath configType : string)
    (targets : list string) (bundlerConfigs : list string) :
  forall index,
    length (bundlerFiles outputPath configType targets index bundlerConfigs)
    = length bundlerConfigs.
Proof.
  induction bundlerConfigs as [|c rest IH]; intros index; [reflexivity|].
  cbn [bundlerFiles length]. rewrite IH. reflexivity.
Qed.

(** X23: every file of the list is handed to [outputFile], in order and
    whether or not a write fails: the Rsbuild configuration first, at
    [rsbuild.config.mjs] under the output path, then one file per bundler
    configuration, each as [export default] followed by its content. *)
Theorem outputInspectConfigFiles_writes (targets : list string)
    (rawRsbuildConfig : string) (bundlerConfigs : list string)
    (outputPath configType : string) :
  let writes :=
    List.filter isInspectWrite
      (snd (outputInspectConfigFiles targets rawRsbuildConfig bundlerConfigs
              outputPath configType [])) in
  writes
  = InspectWrite (ins_join outputPath "rsbuild.config.mjs")
      (String.append "export default " rawRsbuildConfig)
    :: map writeOf (bundlerFiles outputPath configType targets 0 bundlerConfigs)
  /\ length writes = S (length bundlerConfigs).
Proof.
  cbn zeta.
  assert (Hwrites :
    List.filter isInspectWrite
      (snd (outputInspectConfigFiles targets rawRsbuildConfig bundlerConfigs
              outputPath configType []))
    = map writeOf
        (inspectFiles outputPath configType rawRsbuildConfig targets
           bundlerConfigs)).
  { unfold outputInspectConfigFiles, mbind, Async_bind, await, inspectEmit.
    rewrite startWrites_run.
    destruct (promiseAll _) as [[]|e|]; cbn [snd app];
      rewrite ?List.filter_app, filter_writes; cbn; rewrite ?app_nil_r;
      reflexivity. }
  rewrite Hwrites. split; [reflexivity|].
  unfold inspectFiles. cbn [map length].
  rewrite length_map, bundlerFiles_length. reflexivity.
Qed.

(** X24: the success message is logged, and the promise fulfilled, exactly
    when every write fulfils; a rejection of the promise is the rejection
    of one of the writes. *)
Theorem outputInspectConfigFiles_success (targets : list string)
    (rawRsbuildConfig : string) (bundlerConfigs : list string)
    (outputPath configType : string) :
  let run := outputInspectConfigFiles targets rawRsbuildConfig bundlerConfigs
               outputPath configType [] in
  let files := inspectFiles outputPath configType rawRsbuildConfig targets
                 bundlerConfigs in
  (fst run = Fulfilled tt
   <-> Forall (fun item =>
                 ins_outputFile (file_path item)
                   (String.append "export default " (file_content item))
                 = Fulfilled tt) files)
  /\ (existsb isInspectSuccess (snd run) = true <-> fst run = Fulfilled tt)
  /\ (forall e, fst run = Rejected e ->
        exists item, In item files
          /\ ins_outputFile (file_path item)
               (String.append "export default " (file_content item))
             = Rejected e).
Proof.
  cbn zeta.
  unfold outputInspectConfigFiles, mbind, Async_bind, await, inspectEmit.
  rewrite startWrites_run. cbn [app].
  set (files := inspectFiles outputPath configType rawRsbuildConfig targets
                  bundlerConfigs).
  set (promises := map _ files).
  assert (Hnone : existsb isInspectSuccess (map writeOf files) = false).
  { clear. induction files as [|item rest IH]; [reflexivity | exact IH]. }
  destruct (promiseAll promises) as [[]|e|] eqn:Hp; cbn [fst snd].
  - split; [|split].
    + split; [intros _ | reflexivity].
      apply promiseAll_fulfilled in Hp. unfold promises in Hp.
      apply Forall_map in Hp. exact Hp.
    + rewrite existsb_app, Hnone. cbn. split; reflexivity.
    + intros e He. discriminate He.
  - split; [|split].
    + split; [discriminate|]. intros Hfiles.
      assert (Hx : promiseAll promises = Fulfilled tt);
        [|rewrite Hp in Hx; discriminate Hx].
      apply promiseAll_fulfilled. unfold promises.
      apply Forall_map. exact Hfiles.
    + rewrite Hnone. split; discriminate.
    + intros e0 He0. injection He0 as <-.
      pose proof (promiseAll_rejected promises e Hp) as Hrej.
      unfold promises in Hrej. apply in_map_iff in Hrej. destruct Hrej as (item & Hitem & Hin).
      exists item. split; [exact Hin | exact Hitem].
  - split; [|split].
    + split; [discriminate|]. intros Hfiles.
      assert (Hx : promiseAll promises = Fulfilled tt);
        [|rewrite Hp in Hx; discriminate Hx].
      apply promiseAll_fulfilled. unfold promises.
      apply Forall_map. exact Hfiles.
    + rewrite Hnone. split; discriminate.
    + intros e He. discriminate He.
Qed.

(** X25: a bundler configuration whose file exists already is written
    beside it, under the same name with the clock reading put before
    [.mjs]; one whose file does not exist is written at the plain path. *)
Theorem bundlerFile_conflict (outputPath configType : string)
    (targets : list string) (index : nat) (content stem : string) :
  let name :=
    String.append configType
      (String.append ".config."
         (String.append (nth index targets "undefined") ".mjs")) in
  let file := bundlerFile outputPath configType targets index content in
  ins_join outputPath name = String.append stem ".mjs" ->
  (ins_existsSync (String.append stem ".mjs") = false ->
   file_path file = String.append stem ".mjs")
  /\ (ins_existsSync (String.append stem ".mjs") = true ->
      file_path file
      = String.append stem
          (String.append "."
             (String.append (pretty (ins_now index)) ".mjs"))
      /\ file_path file <> String.append stem ".mjs").
Proof.
  cbn zeta. intros Hjoin. unfold bundlerFile. cbn [file_path].
  rewrite Hjoin. split; intros Hexists; rewrite Hexists; [reflexivity|].
  rewrite replaceSuffix_append. split; [reflexivity|].
  intros Heq. apply String.app_inj in Heq.
  apply (f_equal String.length) in Heq.
  rewrite !length_append in Heq. cbn [String.length] in Heq. lia.
Qed.

(** X26: the name of a bundler file depends on the target at its position
    only: a position past the end of [targets] gets the name [undefined],
    and two positions with the same target get the same path when no file
    is there yet, so that the later content replaces the earlier one. *)
Theorem bundlerFile_same_target (outputPath configType : string)
    (targets : list string) (i j : nat) (content1 content2 : string) :
  let name target :=
    String.append configType
      (String.append ".config." (String.append target ".mjs")) in
  ((length targets <= i)%nat ->
   ins_existsSync (ins_join outputPath (name "undefined")) = false ->
   file_path (bundlerFile outputPath configType targets i content1)
   = ins_join outputPath (name "undefined"))
  /\ (nth i targets "undefined" = nth j targets "undefined" ->
      ins_existsSync (ins_join outputPath (name (nth i targets "undefined")))
      = false ->
      file_path (bundlerFile outputPath configType targets i content1)
      = file_path (bundlerFile outputPath configType targets j content2)).
Proof.
  cbn zeta. unfold bundlerFile. cbn [file_path]. split.
  - intros Hlen Hexists. rewrite (nth_overflow targets "undefined" Hlen).
    rewrite Hexists. reflexivity.
  - intros Hsame Hexists. rewrite <- Hsame, Hexists. reflexivity.
Qed.

End InspectFacts.

(** ** The further properties at concrete inputs *)

(** In the successful run every port is the resolved 8080. *)
Lemma startDevServer_one_port_witness :
  portsAre 8080
    (st_trace (snd (sampleRun None [] [] (ListenCallback None) noOptions)))
  = true.
Proof.
  exact (proj1 (@startDevServer_one_port sampleImports
                  (sampleContext None [] [])
                  (sampleFactory (ListenCallback None)) noOptions ∅ 8080
                  eq_refl)).
Defined.

(** A factory that rejects: the run rejects and no hook is called. *)
Lemma startDevServer_factory_rejection_witness :
  fst (@startDevServer sampleImports (sampleContext None [] sampleCallbacks)
         (sampleFactoryOf (Rejected "no server")) noOptions (initialState ∅))
  = Rejected "no server".
Proof.
  assert (Hocc : occurs isCreateDevServer
            (st_trace (snd (@startDevServer sampleImports
                              (sampleContext None [] sampleCallbacks)
                              (sampleFactoryOf (Rejected "no server"))
                              noOptions (initialState ∅)))) = true)
    by (vm_compute; reflexivity).
  pose proof (@startDevServer_factory_rejection sampleImports
                (sampleContext None [] sampleCallbacks)
                (sampleFactoryOf (Rejected "no server")) noOptions ∅ 8080
                "no server" eq_refl eq_refl Hocc) as Hrun.
  exact (proj1 Hrun).
Defined.

(** A server whose [init] rejects: the run rejects before [listen]. *)
Lemma startDevServer_init_rejection_witness :
  fst (@startDevServer sampleImports (sampleContext None [] [])
         (sampleFactoryOf
            (Fulfilled (sampleServerWithInit (Rejected "init failed")
                          (ListenCallback None))))
         noOptions (initialState ∅))
  = Rejected "init failed".
Proof.
  assert (Hocc : occurs isInit
            (st_trace (snd (@startDevServer sampleImports
                              (sampleContext None [] [])
                              (sampleFactoryOf
                                 (Fulfilled
                                    (sampleServerWithInit
                                       (Rejected "init failed")
                                       (ListenCallback None))))
                              noOptions (initialState ∅)))) = true)
    by (vm_compute; reflexivity).
  pose proof (@startDevServer_init_rejection sampleImports
                (sampleContext None [] [])
                (sampleFactoryOf
                   (Fulfilled (sampleServerWithInit (Rejected "init failed")
                                 (ListenCallback None))))
                noOptions ∅ 8080
                (sampleServerWithInit (Rejected "init failed")
                   (ListenCallback None))
                "init failed" eq_refl eq_refl eq_refl Hocc) as Hrun.
  exact (proj1 Hrun).
Defined.

(** A [listen] that throws: the run rejects with what it threw. *)
Lemma startDevServer_listen_without_callback_witness :
  fst (sampleRun None [] [] (ListenThrows "EACCES") noOptions)
  = Rejected "EACCES".
Proof.
  assert (Hocc : occurs isListen
            (st_trace (snd (sampleRun None [] [] (ListenThrows "EACCES")
                              noOptions))) = true)
    by (vm_compute; reflexivity).
  pose proof (@startDevServer_listen_without_callback sampleImports
                (sampleContext None [] [])
                (sampleFactory (ListenThrows "EACCES")) noOptions ∅ 8080
                (sampleServer (ListenThrows "EACCES"))
                eq_refl eq_refl Hocc) as Hrun.
  destruct Hrun as [Hthrows _].
  exact (proj1 (Hthrows "EACCES" eq_refl)).
Defined.

(** [serverOptions.dev = false] and no tool options: the defaults. *)
Lemma getDevServerOptions_defaults_witness :
  getDevServerOptions (sampleConfig None) {| so_dev := JBool false |} 3000
  = Ok (builtinDevConfig (sampleConfig None) 3000).
Proof.
  exact (getDevServerOptions_defaults (sampleConfig None)
           {| so_dev := JBool false |} 3000 eq_refl eq_refl).
Defined.

(** The preview command with a missing output directory exits, although
    the [preview] method of the instance would never settle. *)
Lemma previewAction_dist_check_witness :
  fst (@previewAction string sampleCliOk sampleInstance sampleOptions
         sampleCliState)
  = Fulfilled (ProcessExit 1).
Proof.
  assert (Hinit : @init string sampleCliOk (Some sampleOptions) None
                    sampleCliState
                  = (Fulfilled (Some "rsbuild"),
                     snd (@init string sampleCliOk (Some sampleOptions) None
                            sampleCliState)))
    by (vm_compute; reflexivity).
  pose proof (@previewAction_dist_check string sampleCliOk sampleInstance
                sampleOptions sampleCliState _ "rsbuild" Hinit) as Hcheck.
  destruct Hcheck as [Hmissing _].
  rewrite (Hmissing eq_refl). reflexivity.
Defined.

(** An existing [rspack.config.web.mjs] is left alone: the file goes to a
    name with the clock reading. *)
Lemma bundlerFile_conflict_witness :
  file_path (@bundlerFile sampleInspect "/out" "rspack" ["web"] 0 "{}")
  = "/out/rspack.config.web.1700000000000.mjs".
Proof.
  pose proof (@bundlerFile_conflict sampleInspect "/out" "rspack" ["web"] 0
                "{}" "/out/rspack.config.web" eq_refl) as Hfile.
  destruct Hfile as [_ Hexists].
  destruct (Hexists eq_refl) as [Hpath _].
  rewrite Hpath. vm_compute. reflexivity.
Defined.

(** The inspect files of two bundler configurations with a single target. *)
Example outputInspectConfigFiles_example :
  map file_path
    (@inspectFiles sampleInspect "/out" "rspack" "{}" ["web"] ["{a}"; "{b}"])
  = [ "/out/rsbuild.config.mjs";
      "/out/rspack.config.web.1700000000000.mjs";
      "/out/rspack.config.undefined.1700000000000.mjs" ].
Proof. vm_compute. reflexivity. Qed.

(** The targets that make a client compiler. *)
Example isClientCompiler_examples :
  isClientCompiler (JArr [JStr "node"; JStr "web"]) = true
  /\ isClientCompiler (JStr "node") = false
  /\ isClientCompiler (JArr []) = false
  /\ isClientCompiler JUndef = false.
Proof. repeat split. Qed.

(** The dev command with a port that is taken ends the process. *)
Example devAction_example :
  @devAction string sampleCliOk sampleInstance sampleOptions sampleCliState
  = (Fulfilled (ProcessExit 1),
     {| commonOpts := sampleOptions;
        cli_trace :=
          [ CliCreateRsbuild "/app"
              {| config_source :=
                   Some {| source_define := Some [("PUBLIC_A", JStr "env")] |};
                 config_dev := None;
                 config_server :=
                   Some {| server_host := Some "0.0.0.0";
                           server_port := JNum 4000 |} |};
            CliLoggerError "Failed to start dev server.";
            CliLoggerError "EADDRINUSE" ] |}).
Proof. vm_compute. reflexivity. Qed.
